(** * FormBuilder (grindjs/html): a shallow embedding of src/FormBuilder.js

    The builder is a JavaScript class whose methods read and write three
    pieces of mutable state (the bound model, the list of label names and
    the option objects handed in by callers) and which can fail with a
    JavaScript exception.  The embedding is a state-and-exception monad
    over an explicit store; every method keeps the name it has in the
    source. *)

From Stdlib Require Import ZArith String Ascii List Bool Lia DecimalString.
From stdpp Require Import base list.
Import ListNotations.
Local Open Scope string_scope.
Local Open Scope Z_scope.
Set Warnings "-register-all".

(** ** JavaScript values *)

(** Data values.  Numbers are the integers the builder is used with (ranges
    of years, column counts); strings are sequences of code units below
    256.  Arrays and plain objects are immutable data here: the only
    objects the builder mutates are the option objects, which live in the
    store (see [State]). *)
Inductive jsval : Type :=
| VUndefined
| VNull
| VBool (b : bool)
| VNum (n : Z)
| VStr (s : string)
| VArr (xs : list jsval)
| VObj (props : list (string * jsval)).

(** A plain object: its own properties in enumeration order. *)
Definition obj : Type := list (string * jsval).

Inductive JsError : Type := TypeError | ReferenceError.

Inductive Res (A : Type) : Type :=
| Ok (a : A)
| Throw (e : JsError).
Arguments Ok {A} a.
Arguments Throw {A} e.

(** Modelled from the spec: the [.isNil] property used throughout the source
    is a source transform that is not part of the class; the spec calls it
    the single absence-check predicate.  [e.isNil] evaluates [e] and is true
    exactly for [null] and [undefined]. *)
Definition isNil (v : jsval) : bool :=
  match v with
  | VUndefined | VNull => true
  | _ => false
  end.

(** ToBoolean, as used by [||] and [if]. *)
Definition truthy (v : jsval) : bool :=
  match v with
  | VUndefined | VNull => false
  | VBool b => b
  | VNum n => negb (n =? 0)
  | VStr s => negb (String.eqb s "")
  | VArr _ | VObj _ => true
  end.

(** [a || b] *)
Definition js_or (a b : jsval) : jsval := if truthy a then a else b.

(** [===] on primitives.  Composite data values carry no identity in this
    model; two of them are treated as distinct references. *)
Definition strict_eq (a b : jsval) : bool :=
  match a, b with
  | VUndefined, VUndefined => true
  | VNull, VNull => true
  | VBool x, VBool y => Bool.eqb x y
  | VNum x, VNum y => x =? y
  | VStr x, VStr y => String.eqb x y
  | _, _ => false
  end.

(** [xs.indexOf(v) >= 0] *)
Definition index_of_ge0 (v : jsval) (xs : list jsval) : bool :=
  existsb (strict_eq v) xs.

(** [param = null] in a parameter list: the default applies to [undefined]. *)
Definition default_null (v : jsval) : jsval :=
  match v with VUndefined => VNull | _ => v end.

Definition default_to (d v : jsval) : jsval :=
  match v with VUndefined => d | _ => v end.

(** ** Strings *)

Definition num_to_str (n : Z) : string := NilZero.string_of_int (Z.to_int n).

Definition join_with (sep : string) (xs : list string) : string :=
  match xs with
  | [] => ""
  | x :: r => fold_left (fun acc y => acc ++ sep ++ y) r x
  end.

(** ToString. *)
Fixpoint to_str (v : jsval) : string :=
  match v with
  | VUndefined => "undefined"
  | VNull => "null"
  | VBool true => "true"
  | VBool false => "false"
  | VNum n => num_to_str n
  | VStr s => s
  | VArr xs =>
      join_with ","
        ((fix elems (l : list jsval) : list string :=
            match l with
            | [] => []
            | x :: r => (if isNil x then "" else to_str x) :: elems r
            end) xs)
  | VObj _ => "[object Object]"
  end.

(** [v.toString()]: a member call, so it throws on [null] and [undefined]. *)
Definition toString (v : jsval) : Res string :=
  if isNil v then Throw TypeError else Ok (to_str v).

Definition upper_char (c : ascii) : ascii :=
  let n := nat_of_ascii c in
  if ((97 <=? n) && (n <=? 122))%nat then ascii_of_nat (n - 32) else c.

Fixpoint upper (s : string) : string :=
  match s with
  | EmptyString => EmptyString
  | String c r => String (upper_char c) (upper r)
  end.

(** [v.toUpperCase()]: only strings have the method. *)
Definition toUpperCase (v : jsval) : Res string :=
  match v with
  | VStr s => Ok (upper s)
  | _ => Throw TypeError
  end.

(** [s.replace(/c/g, r)] for a one-character pattern. *)
Fixpoint replace_char_g (c : ascii) (r : string) (s : string) : string :=
  match s with
  | EmptyString => EmptyString
  | String d t =>
      if Ascii.eqb c d then r ++ replace_char_g c r t
      else String d (replace_char_g c r t)
  end.

(** [s.replace(/c/, r)]: no [g] flag, the first occurrence only. *)
Fixpoint replace_char_first (c : ascii) (r : string) (s : string) : string :=
  match s with
  | EmptyString => EmptyString
  | String d t =>
      if Ascii.eqb c d then r ++ t
      else String d (replace_char_first c r t)
  end.

(** [s.replace(/\[ \]/g, '')]: the pattern is an opening bracket, a space
    and a closing bracket. *)
Fixpoint remove_bracket_space_bracket (s : string) : string :=
  match s with
  | String "[" (String " " (String "]" t)) => remove_bracket_space_bracket t
  | String d t => String d (remove_bracket_space_bracket t)
  | EmptyString => EmptyString
  end.

(** [\w] *)
Definition is_word_char (c : ascii) : bool :=
  let n := nat_of_ascii c in
  (((48 <=? n) && (n <=? 57)) || ((65 <=? n) && (n <=? 90))
   || ((97 <=? n) && (n <=? 122)) || (n =? 95))%nat.

(** [[a-z\x00-\x7F]] under the [i] flag: the code units 0 to 127. *)
Definition in_label_class (c : ascii) : bool := (nat_of_ascii c <=? 127)%nat.

(** [s.replace(/(\b[a-z\x00-\x7F])/gi, s => s.toLocaleUpperCase())].  Each
    match is one character of the class standing right after a word
    boundary; [prev_word] tells whether the character before the current
    position is a word character (false at the start of the string). *)
Fixpoint upper_at_boundaries (prev_word : bool) (s : string) : string :=
  match s with
  | EmptyString => EmptyString
  | String c t =>
      let w := is_word_char c in
      let c' := if xorb prev_word w && in_label_class c then upper_char c else c in
      String c' (upper_at_boundaries w t)
  end.

(** [s.split(/x/)] *)
Fixpoint split_x_aux (cur : string) (s : string) : list string :=
  match s with
  | EmptyString => [cur]
  | String c t =>
      if Ascii.eqb c "x" then cur :: split_x_aux "" t
      else split_x_aux (cur ++ String c "") t
  end.

Definition split_x (s : string) : list string := split_x_aux "" s.

(** ** Objects *)

(** An array index in canonical form: ["0"], or digits without a leading
    zero.  Such keys are enumerated first, in ascending order. *)
Definition digit_of (c : ascii) : option N :=
  let n := nat_of_ascii c in
  if ((48 <=? n) && (n <=? 57))%nat then Some (N.of_nat (n - 48)) else None.

Fixpoint digits_value (acc : N) (s : string) : option N :=
  match s with
  | EmptyString => Some acc
  | String c t =>
      match digit_of c with
      | Some d => digits_value (acc * 10 + d)%N t
      | None => None
      end
  end.

Definition array_index (k : string) : option N :=
  match k with
  | EmptyString => None
  | String "0" EmptyString => Some 0%N
  | String "0" _ => None
  | _ =>
      match digits_value 0%N k with
      | Some n => if (n <? 4294967295)%N then Some n else None
      | None => None
      end
  end.

Fixpoint obj_get (k : string) (o : obj) : jsval :=
  match o with
  | [] => VUndefined
  | (k', v) :: r => if String.eqb k k' then v else obj_get k r
  end.

Fixpoint obj_has (k : string) (o : obj) : bool :=
  match o with
  | [] => false
  | (k', _) :: r => String.eqb k k' || obj_has k r
  end.

Fixpoint obj_replace (k : string) (v : jsval) (o : obj) : obj :=
  match o with
  | [] => []
  | (k', v') :: r =>
      if String.eqb k k' then (k', v) :: r else (k', v') :: obj_replace k v r
  end.

Fixpoint obj_insert_index (n : N) (k : string) (v : jsval) (o : obj) : obj :=
  match o with
  | [] => [(k, v)]
  | (k', v') :: r =>
      match array_index k' with
      | Some m => if (m <? n)%N then (k', v') :: obj_insert_index n k v r
                  else (k, v) :: o
      | None => (k, v) :: o
      end
  end.

(** [o[k] = v] *)
Definition obj_set (k : string) (v : jsval) (o : obj) : obj :=
  if obj_has k o then obj_replace k v o
  else match array_index k with
       | Some n => obj_insert_index n k v o
       | None => (o ++ [(k, v)])%list
       end.

(** [delete o[k]] *)
Fixpoint obj_delete (k : string) (o : obj) : obj :=
  match o with
  | [] => []
  | (k', v) :: r => if String.eqb k k' then r else (k', v) :: obj_delete k r
  end.

(** [Object.keys(o)] *)
Definition obj_keys (o : obj) : list string := map fst o.

(** [Object.assign(target, source)] *)
Definition obj_assign (target source : obj) : obj :=
  fold_left (fun t kv => obj_set (fst kv) (snd kv) t) source target.

Fixpoint string_chars (s : string) : list jsval :=
  match s with
  | EmptyString => []
  | String c t => VStr (String c "") :: string_chars t
  end.

(** [v[k]] on a data value; a member access throws on [null] and
    [undefined]. *)
Definition prop (v : jsval) (k : string) : Res jsval :=
  match v with
  | VUndefined | VNull => Throw TypeError
  | VObj o => Ok (obj_get k o)
  | VArr xs =>
      if String.eqb k "length" then Ok (VNum (Z.of_nat (length xs)))
      else match array_index k with
           | Some n => Ok (nth (N.to_nat n) xs VUndefined)
           | None => Ok VUndefined
           end
  | VStr s =>
      if String.eqb k "length" then Ok (VNum (Z.of_nat (String.length s)))
      else match array_index k with
           | Some n => Ok (nth (N.to_nat n) (string_chars s) VUndefined)
           | None => Ok VUndefined
           end
  | VBool _ | VNum _ => Ok VUndefined
  end.

(** The values a [for (const x of v)] loop visits: arrays and strings are
    iterable, plain objects and the other primitives are not. *)
Definition iterate (v : jsval) : Res (list jsval) :=
  match v with
  | VArr xs => Ok xs
  | VStr s => Ok (string_chars s)
  | _ => Throw TypeError
  end.

(** ** The builder's state *)

(** The marker type for markup that must not be escaped again.  Modelled
    from the spec: [html.toHtmlString] belongs to the HTML collaborator,
    which is not part of the class; the spec says it wraps the string in a
    marker type.  Interpolating the wrapper in a template gives the string
    back. *)
Record HtmlString : Type := toHtmlString { html_text : string }.

(** A bound model: an object that may offer [getFormValue(key)], with its
    data properties. *)
Record Model : Type := {
  getFormValue : option (jsval -> jsval);
  fields : obj
}.

(** References into the store. *)
Definition loc : Type := nat.

(** The instance fields [csrfToken], [model] ([None] is [null]) and
    [labels]; the store of option objects that callers and the builder
    share; the arrays that the global variable [html] has pointed to; and
    that global itself ([None]: no such global exists). *)
Record State : Type := {
  csrfToken : jsval;
  model : option Model;
  labels : list jsval;
  heap : list obj;
  arrays : list (list HtmlString);
  g_html : option loc
}.

(** The class constants. *)
Definition reserved : list string := ["method"; "url"; "route"; "action"; "files"].
Definition spoofedMethods : list jsval :=
  [VStr "DELETE"; VStr "PATCH"; VStr "PUT"].
Definition skipValueTypes : list jsval :=
  [VStr "file"; VStr "password"; VStr "checkbox"; VStr "radio"].

(** [new FormBuilder(app, html, csrfToken)] in a module where no global
    [html] exists. *)
Definition new_builder (token : jsval) : State :=
  {| csrfToken := token; model := None; labels := [];
     heap := []; arrays := []; g_html := None |}.

(** ** The monad *)

Definition M (A : Type) : Type := State -> Res A * State.

Definition ret {A} (a : A) : M A := fun st => (Ok a, st).
Definition throw {A} (e : JsError) : M A := fun st => (Throw e, st).
Definition bind {A B} (m : M A) (k : A -> M B) : M B :=
  fun st =>
    match m st with
    | (Ok a, st') => k a st'
    | (Throw e, st') => (Throw e, st')
    end.
Definition lift {A} (r : Res A) : M A := fun st => (r, st).
Definition gets {A} (f : State -> A) : M A := fun st => (Ok (f st), st).
Definition modify (f : State -> State) : M unit := fun st => (Ok tt, f st).

Notation "'let*' x ':=' m 'in' k" := (bind m (fun x => k))
  (at level 10, x name, m at level 100, k at level 200).
Notation "m ';;' k" := (bind m (fun _ => k))
  (at level 100, k at level 200, right associativity).

Definition when (b : bool) (m : M unit) : M unit := if b then m else ret tt.

Definition set_heap (h : list obj) (st : State) : State :=
  {| csrfToken := csrfToken st; model := model st; labels := labels st;
     heap := h; arrays := arrays st; g_html := g_html st |}.
Definition set_labels (l : list jsval) (st : State) : State :=
  {| csrfToken := csrfToken st; model := model st; labels := l;
     heap := heap st; arrays := arrays st; g_html := g_html st |}.
Definition set_model (m : option Model) (st : State) : State :=
  {| csrfToken := csrfToken st; model := m; labels := labels st;
     heap := heap st; arrays := arrays st; g_html := g_html st |}.
Definition set_arrays (a : list (list HtmlString)) (st : State) : State :=
  {| csrfToken := csrfToken st; model := model st; labels := labels st;
     heap := heap st; arrays := a; g_html := g_html st |}.
Definition set_g_html (g : option loc) (st : State) : State :=
  {| csrfToken := csrfToken st; model := model st; labels := labels st;
     heap := heap st; arrays := arrays st; g_html := g |}.

(** [{ ... }]: a new object in the store. *)
Definition new_object (o : obj) : M loc :=
  fun st => (Ok (length (heap st)), set_heap (heap st ++ [o])%list st).

(** The object behind a reference; a reference to nothing is not an
    object, and touching its properties throws. *)
Definition read_obj (l : loc) : M obj :=
  fun st => match heap st !! l with
            | Some o => (Ok o, st)
            | None => (Throw TypeError, st)
            end.

Definition write_obj (l : loc) (o : obj) : M unit :=
  modify (fun st => set_heap (<[l := o]> (heap st)) st).

(** [options[k]], [options[k] = v] and [delete options[k]] *)
Definition opt_get (l : loc) (k : string) : M jsval :=
  let* o := read_obj l in ret (obj_get k o).
Definition opt_set (l : loc) (k : string) (v : jsval) : M unit :=
  let* o := read_obj l in write_obj l (obj_set k v o).
Definition opt_delete (l : loc) (k : string) : M unit :=
  let* o := read_obj l in write_obj l (obj_delete k o).

(** [options = { }] in a parameter list. *)
Definition default_options (options : option loc) : M loc :=
  match options with
  | Some l => ret l
  | None => new_object []
  end.

(** [html = [ ]].  The class is an ES module, hence strict code: assigning
    to a variable that was never declared throws a ReferenceError. *)
Definition assign_html_empty : M unit :=
  fun st => match g_html st with
            | None => (Throw ReferenceError, st)
            | Some _ =>
                (Ok tt, set_g_html (Some (length (arrays st)))
                          (set_arrays (arrays st ++ [[]])%list st))
            end.

(** Reading the variable [html]: the array it points to. *)
Definition read_html : M loc :=
  fun st => match g_html st with
            | None => (Throw ReferenceError, st)
            | Some a => (Ok a, st)
            end.

(** [a.push(x)] on the array [a]. *)
Definition array_push (a : loc) (x : HtmlString) : M unit :=
  modify (fun st =>
    match arrays st !! a with
    | Some xs => set_arrays (<[a := (xs ++ [x])%list]> (arrays st)) st
    | None => st
    end).

(** [html.join('')] *)
Definition html_join : M string :=
  let* a := read_html in
  let* xs := gets (fun st => default [] (arrays st !! a)) in
  ret (String.concat "" (map html_text xs)).

(** ** Collaborators *)

(** What the builder is constructed with and delegates to: the HTML
    collaborator ([this.html]), the URL resolver ([this.app.url]) and the
    boolean cast of the as-type package.  They are taken as total
    functions. *)
Record Host : Type := {
  html_attributes : obj -> string;
  html_entities : jsval -> string;
  url_make : jsval -> jsval -> string;
  url_route : jsval -> jsval -> string;
  url_current : string;
  cast_boolean : jsval -> bool
}.

(** The two session methods of the class, [old(name)] and
    [oldInputIsEmpty()], which the other methods reach through [this]. *)
Record Session : Type := {
  old : jsval -> jsval;
  oldInputIsEmpty : bool
}.

(** Their bodies in the source: there is no session support yet, so [old]
    returns [null] and the old input is always empty. *)
Definition no_session : Session :=
  {| old := fun _ => VNull; oldInputIsEmpty := true |}.

(** The double quote character, for markup. *)
Definition dq : string := String (ascii_of_nat 34) EmptyString.

(** ** The methods *)

Section FormBuilder.

Context (host : Host) (sess : Session).

(** [_transformKey(key)] *)
Definition _transformKey (key : jsval) : Res jsval :=
  match key with
  | VStr s =>
      Ok (VStr (replace_char_g "]" ""
                 (replace_char_g "[" "."
                   (remove_bracket_space_bracket
                     (replace_char_g "." "_" s)))))
  | _ => Throw TypeError
  end.

(** [_getModelValueAttribute(name)].  [this.model.getFormValue] is a member
    access on [this.model], which throws when no model is bound. *)
Definition _getModelValueAttribute (name : jsval) : M jsval :=
  let* key := lift (_transformKey name) in
  let* m := gets model in
  match m with
  | None => throw TypeError
  | Some m =>
      match getFormValue m with
      | Some f => ret (f key)
      | None => ret (obj_get (to_str key) (fields m))
      end
  end.

(** [getValueAttribute(name, value = null)] *)
Definition getValueAttribute (name value : jsval) : M jsval :=
  let value := default_null value in
  if isNil name then ret value
  else
    let oldValue := old sess name in
    if negb (isNil oldValue) && negb (strict_eq name (VStr "_method"))
    then ret oldValue
    else if negb (isNil value) then ret value
    else
      let* m := gets model in
      match m with
      | Some _ => _getModelValueAttribute name
      | None => ret VNull
      end.

(** [getIdAttribute(name, attributes)] *)
Definition getIdAttribute (name : jsval) (attributes : loc) : M jsval :=
  let* id := opt_get attributes "id" in
  if negb (isNil id) then ret id
  else
    let* ls := gets labels in
    if index_of_ge0 name ls then ret name else ret VNull.

(** [input(type, name, value = null, options = { })] *)
Definition input (type name value : jsval) (options : option loc)
  : M HtmlString :=
  let value := default_null value in
  let* options := default_options options in
  let* n := opt_get options "name" in
  when (isNil n) (opt_set options "name" name) ;;
  let* id := getIdAttribute name options in
  let* value :=
    (if negb (index_of_ge0 type skipValueTypes)
     then getValueAttribute name value
     else ret value) in
  let* o := read_obj options in
  write_obj options
    (obj_assign o [("type", type); ("value", value); ("id", id)]) ;;
  let* o := read_obj options in
  ret (toHtmlString ("<input" ++ html_attributes host o ++ ">")).

(** [text(name, value = null, options = { })] *)
Definition text (name value : jsval) (options : option loc) : M HtmlString :=
  input (VStr "text") name (default_null value) options.

(** [hidden(name, value = null, options = { })] *)
Definition hidden (name value : jsval) (options : option loc) : M HtmlString :=
  input (VStr "hidden") name (default_null value) options.

(** [token()] *)
Definition token : M HtmlString :=
  let* t := gets csrfToken in
  let* unsupported :=
    (if isNil t then ret true
     else let* len := lift (prop t "length") in ret (truthy len)) in
  let t := if unsupported then VStr "UNSUPPORTED" else t in
  hidden (VStr "_token") t None.

(** [_getMethod(method)] *)
Definition _getMethod (method : jsval) : Res jsval :=
  match toUpperCase method with
  | Ok m => Ok (VStr (if negb (String.eqb m "GET") then "POST" else m))
  | Throw e => Throw e
  end.

(** [_getUrlAction(options)] *)
Definition _getUrlAction (options : jsval) : string :=
  match options with
  | VArr xs => url_make host (nth 0 xs VUndefined) (VArr (tl xs))
  | _ => url_make host options VUndefined
  end.

(** [_getRouteAction(options)] *)
Definition _getRouteAction (options : jsval) : string :=
  match options with
  | VArr xs => url_route host (nth 0 xs VUndefined) (VArr (tl xs))
  | _ => url_route host options VUndefined
  end.

(** [_getAction(options)] *)
Definition _getAction (options : loc) : M jsval :=
  let* url := opt_get options "url" in
  if negb (isNil url) then ret (VStr (_getUrlAction url))
  else
    let* route := opt_get options "route" in
    if negb (isNil route) then ret (VStr (_getRouteAction route))
    else ret (VStr (url_current host)).

(** [_getAppendage(method)] *)
Definition _getAppendage (method : jsval) : M string :=
  let appendage := "" in
  let* method := lift (toUpperCase method) in
  let* appendage :=
    (if index_of_ge0 (VStr method) spoofedMethods
     then let* h := hidden (VStr "_method") (VStr method) None in
          ret (appendage ++ html_text h)
     else ret appendage) in
  let* appendage :=
    (if negb (String.eqb method "GET")
     then let* t := token in ret (appendage ++ html_text t)
     else ret appendage) in
  ret appendage.

(** [open(options = { })] *)
Definition open (options : option loc) : M HtmlString :=
  let* options := default_options options in
  let* m := opt_get options "method" in
  let method := js_or m (VStr "post") in
  let* form_method := lift (_getMethod method) in
  let* action := _getAction options in
  let attributes : obj :=
    [("method", form_method); ("action", action);
     ("accept-charset", VStr "UTF-8")] in
  let* append := _getAppendage method in
  let* files := opt_get options "files" in
  when (negb (isNil files))
    (opt_set options "enctype" (VStr "multipart/form-data")) ;;
  let* o := read_obj options in
  let attributes :=
    fold_left
      (fun attrs key =>
         if existsb (String.eqb key) reserved then attrs
         else obj_set key (obj_get key o) attrs)
      (obj_keys o) attributes in
  let attributesHtml := html_attributes host attributes in
  ret (toHtmlString ("<form" ++ attributesHtml ++ ">" ++ append)).

(** [setModel(model)] *)
Definition setModel (m : option Model) : M unit := modify (set_model m).

(** [close()] *)
Definition close : M HtmlString :=
  modify (set_labels []) ;;
  modify (set_model None) ;;
  ret (toHtmlString "</form>").

(** [_formatLabel(name, value)] *)
Definition _formatLabel (name value : jsval) : Res jsval :=
  if negb (isNil value) then Ok value
  else
    match name with
    | VStr s =>
        Ok (VStr (upper_at_boundaries false (replace_char_first "_" " " s)))
    | _ => Throw TypeError
    end.

(** [label(name, value = null, options = { }, escapeHtml = true)] *)
Definition label (name value : jsval) (options : option loc)
    (escapeHtml : jsval) : M HtmlString :=
  let value := default_null value in
  let* options := default_options options in
  let escapeHtml := default_to (VBool true) escapeHtml in
  modify (fun st => set_labels (labels st ++ [name])%list st) ;;
  let* o := read_obj options in
  let options := html_attributes host o in
  let* value := lift (_formatLabel name value) in
  let shown :=
    if truthy escapeHtml then html_entities host value else to_str value in
  ret (toHtmlString
         ("<label for=" ++ dq ++ to_str name ++ dq ++ options ++ ">"
          ++ shown ++ "</label>")).

(** [_setQuickTextAreaSize(options)]: a new object. *)
Definition _setQuickTextAreaSize (options : loc) : M loc :=
  let* size := opt_get options "size" in
  let* segments :=
    (match size with
     | VStr s => ret (map VStr (split_x s))
     | _ => throw TypeError
     end) in
  let* o := read_obj options in
  new_object
    (obj_assign (obj_assign [] o)
       [("cols", nth 0 segments VUndefined);
        ("rows", nth 1 segments VUndefined)]).

(** [_setTextAreaSize(options)]: a new object. *)
Definition _setTextAreaSize (options : loc) : M loc :=
  let* size := opt_get options "size" in
  if negb (isNil size) then _setQuickTextAreaSize options
  else
    let* c := opt_get options "cols" in
    let cols := js_or c (VNum 50) in
    let* r := opt_get options "rows" in
    let rows := js_or r (VNum 10) in
    let* o := read_obj options in
    new_object (obj_assign (obj_assign [] o) [("cols", cols); ("rows", rows)]).

(** [textarea(name, value = null, options = { })] *)
Definition textarea (name value : jsval) (options : option loc)
  : M HtmlString :=
  let value := default_null value in
  let* options := default_options options in
  let* n := opt_get options "name" in
  when (isNil n) (opt_set options "name" name) ;;
  let* options := _setTextAreaSize options in
  let* id := getIdAttribute name options in
  opt_set options "id" id ;;
  opt_delete options "size" ;;
  let* resolved := getValueAttribute name value in
  let* value := lift (toString resolved) in
  let* o := read_obj options in
  let options := html_attributes host o in
  ret (toHtmlString
         ("<textarea" ++ options ++ ">" ++ html_entities host (VStr value)
          ++ "</textarea>")).

(** [_getSelectedValue(value, selected)] *)
Definition _getSelectedValue (value selected : jsval) : Res jsval :=
  match selected with
  | VArr xs => Ok (if index_of_ge0 value xs then VStr "selected" else VNull)
  | _ =>
      match toString value with
      | Throw e => Throw e
      | Ok a =>
          match toString selected with
          | Throw e => Throw e
          | Ok b => Ok (if String.eqb a b then VStr "selected" else VNull)
          end
      end
  end.

(** [_option(display, value, selected)] *)
Definition _option (display value selected : jsval) : M HtmlString :=
  let* selected := lift (_getSelectedValue value selected) in
  let options : obj := [("value", value); ("selected", selected)] in
  ret (toHtmlString
         ("<option" ++ html_attributes host options ++ ">"
          ++ html_entities host display ++ "</option>")).

(** [_placeholderOption(display, selected)] *)
Definition _placeholderOption (display selected : jsval) : M HtmlString :=
  let* selected := lift (_getSelectedValue VNull selected) in
  let options : obj := [("selected", selected); ("value", VStr "")] in
  ret (toHtmlString
         ("<option" ++ html_attributes host options ++ ">"
          ++ html_entities host display ++ "</option>")).

(** The loop of [_optionGroup]:
    [for (const value of list) html.push(this._option(list[value], value, selected))].
    The array that [html] names is looked up before the argument of [push]
    is evaluated. *)
Fixpoint _optionGroup_loop (list selected : jsval) (items : Datatypes.list jsval)
  : M unit :=
  match items with
  | [] => ret tt
  | value :: rest =>
      let* a := read_html in
      let* display := lift (prop list (to_str value)) in
      let* opt := _option display value selected in
      array_push a opt ;;
      _optionGroup_loop list selected rest
  end.

(** [_optionGroup(list, label, selected)] *)
Definition _optionGroup (list label selected : jsval) : M HtmlString :=
  assign_html_empty ;;
  let* items := lift (iterate list) in
  _optionGroup_loop list selected items ;;
  let shown := html_entities host label in
  let* joined := html_join in
  ret (toHtmlString
         ("<optgroup label=" ++ dq ++ shown ++ dq ++ ">" ++ joined
          ++ "</optgroup>")).

(** [getSelectOption(display, value, selected)]; [typeof null] is
    ['object'] as well. *)
Definition getSelectOption (display value selected : jsval) : M HtmlString :=
  match display with
  | VArr _ | VObj _ | VNull => _optionGroup display value selected
  | _ => _option display value selected
  end.

(** The loop of [select]:
    [for (const value of list) html.push(this.getSelectOption(list[value], value, selected))] *)
Fixpoint select_loop (list selected : jsval) (items : Datatypes.list jsval) : M unit :=
  match items with
  | [] => ret tt
  | value :: rest =>
      let* a := read_html in
      let* display := lift (prop list (to_str value)) in
      let* opt := getSelectOption display value selected in
      array_push a opt ;;
      select_loop list selected rest
  end.

(** [select(name, list = [ ], selected = null, options = { })] *)
Definition select (name list selected : jsval) (options : option loc)
  : M HtmlString :=
  let list := default_to (VArr []) list in
  let selected := default_null selected in
  let* options := default_options options in
  let* selected := getValueAttribute name selected in
  let* id := getIdAttribute name options in
  opt_set options "id" id ;;
  let* n := opt_get options "name" in
  when (isNil n) (opt_set options "name" name) ;;
  assign_html_empty ;;
  let* placeholder := opt_get options "placeholder" in
  (if negb (isNil placeholder)
   then let* a := read_html in
        let* opt := _placeholderOption placeholder selected in
        array_push a opt ;;
        opt_delete options "placeholder"
   else ret tt) ;;
  let* items := lift (iterate list) in
  select_loop list selected items ;;
  let* o := read_obj options in
  let options := html_attributes host o in
  let* list := html_join in
  ret (toHtmlString ("<select" ++ options ++ ">" ++ list ++ "</select>")).

(** The loop of [selectRange]:
    [for (let i = begin; i <= end; i++) range[i] = i], with [count] the
    number of iterations left. *)
Fixpoint range_loop (count : nat) (i : Z) (range : obj) : obj :=
  match count with
  | O => range
  | S count' => range_loop count' (i + 1) (obj_set (num_to_str i) (VNum i) range)
  end.

(** [selectRange(name, begin, end, selected = null, options = { })] *)
Definition selectRange (name : jsval) (begin end_ : Z) (selected : jsval)
    (options : option loc) : M HtmlString :=
  let selected := default_null selected in
  let* options := default_options options in
  let range := range_loop (Z.to_nat (end_ - begin + 1)) begin [] in
  select name (VObj range) selected (Some options).

(** [_missingOldAndModel(name)] *)
Definition _missingOldAndModel (name : jsval) : M bool :=
  let oldValue := old sess name in
  if negb (isNil oldValue) then ret false
  else
    let* modelValue := _getModelValueAttribute name in
    ret (isNil modelValue).

(** [_getCheckboxCheckedState(name, value, checked)] *)
Definition _getCheckboxCheckedState (name value checked : jsval) : M jsval :=
  if negb (oldInputIsEmpty sess) && isNil (old sess name)
  then ret (VBool false)
  else
    let* missing := _missingOldAndModel name in
    if missing then ret checked
    else
      let* posted := getValueAttribute name checked in
      match posted with
      | VArr xs => ret (VBool (index_of_ge0 value xs))
      | _ => ret (VBool (cast_boolean host posted))
      end.

(** [_getRadioCheckedState(name, value, checked)] *)
Definition _getRadioCheckedState (name value checked : jsval) : M jsval :=
  let* missing := _missingOldAndModel name in
  if missing then ret checked
  else
    let* v := getValueAttribute name VUndefined in
    ret (VBool (strict_eq v value)).

(** [_getCheckedState(type, name, value, checked)] *)
Definition _getCheckedState (type name value checked : jsval) : M jsval :=
  if strict_eq type (VStr "checkbox")
  then _getCheckboxCheckedState name value checked
  else if strict_eq type (VStr "radio")
  then _getRadioCheckedState name value checked
  else
    let* v := getValueAttribute name VUndefined in
    ret (VBool (strict_eq v value)).

(** [_checkable(type, name, value, checked, options)] *)
Definition _checkable (type name value checked : jsval) (options : loc)
  : M HtmlString :=
  let* checked := _getCheckedState type name value checked in
  when (truthy checked) (opt_set options "checked" (VStr "checked")) ;;
  input type name value (Some options).

(** [checkbox(name, value = 1, checked = null, options = { })] *)
Definition checkbox (name value checked : jsval) (options : option loc)
  : M HtmlString :=
  let value := default_to (VNum 1) value in
  let checked := default_null checked in
  let* options := default_options options in
  _checkable (VStr "checkbox") name value checked options.

(** [radio(name, value = null, checked = null, options = { })] *)
Definition radio (name value checked : jsval) (options : option loc)
  : M HtmlString :=
  let value := default_null value in
  let checked := default_null checked in
  let* options := default_options options in
  let value := if isNil value then name else value in
  _checkable (VStr "radio") name value checked options.

End FormBuilder.

(** ** Further methods *)

Section Wrappers.

Context (host : Host) (sess : Session).

(** [password(name, options = { })] *)
Definition password (name : jsval) (options : option loc) : M HtmlString :=
  input host sess (VStr "password") name (VStr "") options.

(** [file(name, options = { })] *)
Definition file (name : jsval) (options : option loc) : M HtmlString :=
  input host sess (VStr "file") name VNull options.

(** [submit(value = null, options = { })] *)
Definition submit (value : jsval) (options : option loc) : M HtmlString :=
  input host sess (VStr "submit") VNull (default_null value) options.


End Wrappers.

(** ** A concrete host *)

Module Demo.

(** Modelled from the spec: the text-escaping capability of the HTML
    collaborator ([escapeHtml(string) -> string]), which is not part of the
    class.  The markup characters are replaced by their entities. *)
Fixpoint escape (s : string) : string :=
  match s with
  | EmptyString => EmptyString
  | String c t =>
      (if Ascii.eqb c "&" then "&amp;"
       else if Ascii.eqb c "<" then "&lt;"
       else if Ascii.eqb c ">" then "&gt;"
       else if Ascii.eqb c (ascii_of_nat 34) then "&quot;"
       else String c EmptyString) ++ escape t
  end.

(** Modelled from the spec: the attribute serializer of the HTML
    collaborator, which is not part of the class: a leading-space-prefixed,
    escaped key="value" sequence, booleans rendered as bare attribute
    names, absent values omitted. *)
Definition attribute (kv : string * jsval) : string :=
  match snd kv with
  | VUndefined | VNull => ""
  | VBool _ => " " ++ fst kv
  | v => " " ++ fst kv ++ "=" ++ dq ++ escape (to_str v) ++ dq
  end.

Definition attributes (o : obj) : string := String.concat "" (map attribute o).

(** A host to run the builder on concrete calls.  URLs resolve to the path
    they are given and the current URL is [/current]; the boolean cast is
    ToBoolean. *)
Definition host : Host :=
  {| html_attributes := attributes;
     html_entities := fun v => escape (to_str v);
     url_make := fun p _ => to_str p;
     url_route := fun n _ => "/" ++ to_str n;
     url_current := "/current";
     cast_boolean := truthy |}.

End Demo.

(** ** Derived notions used in the statements *)

(** The attribute map of a hidden field built on a fresh option object. *)
Definition hidden_field (name value id : jsval) : obj :=
  [("name", name); ("type", VStr "hidden"); ("value", value); ("id", id)].

(** The result of value resolution as a function of the bound model. *)
Definition resolved_value (sess : Session) (name value : jsval)
    (m : option Model) : Res jsval :=
  fst (getValueAttribute sess name value (set_model m (new_builder VNull))).

(** The value [input] writes into the options. *)
Definition input_value (sess : Session) (type name value : jsval)
    (m : option Model) : Res jsval :=
  if negb (index_of_ge0 type skipValueTypes)
  then resolved_value sess name (default_null value) m
  else Ok (default_null value).

(** The option object as [input] leaves it, from the object [o] it was
    given, the value [v] it resolved and the labels emitted so far. *)
Definition input_options (type name v : jsval) (o : obj) (ls : list jsval)
  : obj :=
  let o1 := if isNil (obj_get "name" o) then obj_set "name" name o else o in
  let id :=
    if negb (isNil (obj_get "id" o1)) then obj_get "id" o1
    else if index_of_ge0 name ls then name else VNull in
  obj_assign o1 [("type", type); ("value", v); ("id", id)].

(** A computation that leaves [this.labels] as it found it, whether it
    returns or throws. *)
Definition keeps_labels {A} (m : M A) : Prop :=
  forall st, labels (snd (m st)) = labels st.

(** A model that holds a city under the transformed key, bound on a new
    builder. *)
Definition city_model : Model :=
  {| getFormValue := None;
     fields := [("user.address.city", VStr "Paris")] |}.

Definition city_state : State := set_model (Some city_model) (new_builder VNull).

(** The options of [open({method: 'put', url: '/items/5'})]. *)
Definition put_options : obj := [("method", VStr "put"); ("url", VStr "/items/5")].

(** A computation that throws from every state. *)
Definition throws {A} (m : M A) : Prop :=
  forall st, exists e, fst (m st) = Throw e.

(** [list[value]] as the loops of [select] read it. *)
Definition list_display (list value : jsval) : jsval :=
  match prop list (to_str value) with
  | Ok d => d
  | Throw _ => VUndefined
  end.

(** A display value that [getSelectOption] renders as a plain option. *)
Definition plain_display (d : jsval) : bool :=
  match d with
  | VArr _ | VObj _ | VNull => false
  | _ => true
  end.

(** The attribute map of one option. *)
Definition option_attributes (value : jsval) (selected : list jsval) : obj :=
  [("value", value);
   ("selected", if index_of_ge0 value selected then VStr "selected" else VNull)].

(** The markup of one plain option. *)
Definition option_markup (host : Host) (list : jsval) (selected : Datatypes.list jsval)
    (value : jsval) : HtmlString :=
  toHtmlString
    ("<option" ++ html_attributes host (option_attributes value selected) ++ ">"
     ++ html_entities host (list_display list value) ++ "</option>").

(** A string without the character [c]. *)
Fixpoint lacks (c : ascii) (s : string) : bool :=
  match s with
  | EmptyString => true
  | String d t => negb (Ascii.eqb c d) && lacks c t
  end.

(** How often the character [c] occurs in a string. *)
Fixpoint count_char (c : ascii) (s : string) : nat :=
  match s with
  | EmptyString => O
  | String d t => (if Ascii.eqb c d then 1 else 0)%nat + count_char c t
  end.

(** ** Sample sessions, models and stores *)

(** A session whose old input holds an e-mail address and nothing else. *)
Definition email_session : Session :=
  {| old := fun n => if strict_eq n (VStr "email")
                     then VStr "ann@example.org" else VNull;
     oldInputIsEmpty := false |}.

(** A model with a stored newsletter flag, bound on a new builder. *)
Definition flag_model : Model :=
  {| getFormValue := None; fields := [("newsletter", VStr "yes")] |}.

Definition flag_state : State := set_model (Some flag_model) (new_builder VNull).

(** A model with a stored colour, bound on a builder with one empty option
    object in the store. *)
Definition colour_model : Model :=
  {| getFormValue := None; fields := [("colour", VStr "red")] |}.

Definition colour_state : State :=
  set_heap [[]] (set_model (Some colour_model) (new_builder VNull)).

(** A session and a model that both hold a value for [secret]. *)
Definition secret_session : Session :=
  {| old := fun n => if strict_eq n (VStr "secret")
                     then VStr "typed before" else VNull;
     oldInputIsEmpty := false |}.

Definition secret_state : State :=
  set_heap [[]]
    (set_model (Some {| getFormValue := None;
                        fields := [("secret", VStr "stored")] |})
       (new_builder VNull)).

(** An option object that carries a class, in the store of a new builder
    on which a label for [email] was emitted. *)
Definition class_state : State :=
  set_labels [VStr "email"]
    (set_heap [[("class", VStr "wide")]] (new_builder VNull)).

(** A builder in a program that has a global [html], with one option
    object that holds a placeholder. *)
Definition size_state : State :=
  set_g_html (Some 0%nat)
    (set_heap [[("placeholder", VStr "Pick")]] (new_builder VNull)).

(** A store with one option object that asks for forty columns and five
    rows. *)
Definition sized_state : State :=
  set_heap [[("size", VStr "40x5")]] (new_builder VNull).


(** The loop of [open] that copies the options into the attributes. *)
Definition copy_options (o : obj) (keys : list string) (attributes : obj) : obj :=
  fold_left
    (fun attrs key =>
       if existsb (String.eqb key) reserved then attrs
       else obj_set key (obj_get key o) attrs)
    keys attributes.

(** The options of a form that uploads a file to a route, with a class and
    an [action] entry of its own. *)
Definition upload_options : obj :=
  [("method", VStr "put"); ("route", VStr "photos"); ("files", VBool true);
   ("class", VStr "upload"); ("action", VStr "/elsewhere")].

(** * Properties *)

(** ** The store *)

Lemma read_obj_ok l o st :
  heap st !! l = Some o -> read_obj l st = (Ok o, st).
Proof. intros H. unfold read_obj. now rewrite H. Qed.

Lemma lookup_fresh (h : list obj) (o : obj) :
  (h ++ [o])%list !! length h = Some o.
Proof.
  rewrite lookup_app_r by lia.
  now rewrite Nat.sub_diag.
Qed.

Lemma lookup_written (h : list obj) (l : loc) (o o' : obj) :
  h !! l = Some o -> <[l := o']> h !! l = Some o'.
Proof.
  intros H. apply list_lookup_insert_eq.
  now apply lookup_lt_Some in H.
Qed.

(** ** Objects *)

Lemma obj_get_replace_eq k v o :
  obj_has k o = true -> obj_get k (obj_replace k v o) = v.
Proof.
  induction o as [|[k' v'] r IH]; cbn; [discriminate|].
  destruct (String.eqb k k') eqn:E; cbn; rewrite E; auto.
Qed.

Lemma obj_get_replace_ne k k' v o :
  k <> k' -> obj_get k' (obj_replace k v o) = obj_get k' o.
Proof.
  intros Hne. induction o as [|[k0 v0] r IH]; cbn; [reflexivity|].
  destruct (String.eqb k k0) eqn:E; cbn.
  - apply String.eqb_eq in E. subst k0.
    destruct (String.eqb k' k) eqn:E'; [|reflexivity].
    apply String.eqb_eq in E'. congruence.
  - now rewrite IH.
Qed.

Lemma obj_get_insert_index_eq n k v o :
  obj_has k o = false -> obj_get k (obj_insert_index n k v o) = v.
Proof.
  induction o as [|[k' v'] r IH]; cbn.
  - now rewrite String.eqb_refl.
  - intros H. apply orb_false_iff in H as [E H].
    destruct (array_index k') as [m|]; [destruct (m <? n)%N|];
      cbn; rewrite ?E, ?String.eqb_refl; auto.
Qed.

Lemma obj_get_insert_index_ne n k k' v o :
  k <> k' -> obj_get k' (obj_insert_index n k v o) = obj_get k' o.
Proof.
  intros Hne.
  assert (E : String.eqb k' k = false)
    by (apply String.eqb_neq; congruence).
  induction o as [|[k0 v0] r IH]; cbn.
  - now rewrite E.
  - destruct (array_index k0) as [m|]; [destruct (m <? n)%N|];
      cbn; rewrite ?E, ?IH; auto.
Qed.

Lemma obj_get_app_eq k v o :
  obj_has k o = false -> obj_get k (o ++ [(k, v)])%list = v.
Proof.
  induction o as [|[k' v'] r IH]; cbn.
  - now rewrite String.eqb_refl.
  - intros H. apply orb_false_iff in H as [E H]. rewrite E. auto.
Qed.

Lemma obj_get_app_ne k k' v o :
  k <> k' -> obj_get k' (o ++ [(k, v)])%list = obj_get k' o.
Proof.
  intros Hne.
  assert (E : String.eqb k' k = false)
    by (apply String.eqb_neq; congruence).
  induction o as [|[k0 v0] r IH]; cbn.
  - now rewrite E.
  - now rewrite IH.
Qed.

(** Reading back what was written, and reading around it. *)
Lemma obj_get_set_eq k v o : obj_get k (obj_set k v o) = v.
Proof.
  unfold obj_set. destruct (obj_has k o) eqn:H.
  - now apply obj_get_replace_eq.
  - destruct (array_index k).
    + now apply obj_get_insert_index_eq.
    + now apply obj_get_app_eq.
Qed.

Lemma obj_get_set_ne k k' v o :
  k <> k' -> obj_get k' (obj_set k v o) = obj_get k' o.
Proof.
  intros Hne. unfold obj_set. destruct (obj_has k o).
  - now apply obj_get_replace_ne.
  - destruct (array_index k).
    + now apply obj_get_insert_index_ne.
    + now apply obj_get_app_ne.
Qed.

(** ** Value resolution *)

(** Resolving a value reads the state and leaves it as it is. *)
Lemma _getModelValueAttribute_state name st :
  snd (_getModelValueAttribute name st) = st.
Proof.
  unfold _getModelValueAttribute, bind, lift, gets, ret, throw.
  destruct (_transformKey name); simpl; auto.
  destruct (model st) as [m|]; auto.
  destruct (getFormValue m); auto.
Qed.

Lemma getValueAttribute_state sess name value st :
  snd (getValueAttribute sess name value st) = st.
Proof.
  unfold getValueAttribute, bind, gets, ret.
  destruct (isNil name); auto.
  destruct (negb _ && negb _); auto.
  destruct (negb _); auto.
  destruct (model st) eqn:E; auto.
  apply _getModelValueAttribute_state.
Qed.

(** The two methods as equations on the state. *)
Lemma _getModelValueAttribute_eq name st :
  _getModelValueAttribute name st =
  match _transformKey name with
  | Throw e => (Throw e, st)
  | Ok key =>
      match model st with
      | None => (Throw TypeError, st)
      | Some m =>
          match getFormValue m with
          | Some f => (Ok (f key), st)
          | None => (Ok (obj_get (to_str key) (fields m)), st)
          end
      end
  end.
Proof.
  unfold _getModelValueAttribute, bind, lift, gets, ret, throw.
  destruct (_transformKey name); auto.
  destruct (model st) as [m|]; auto.
  destruct (getFormValue m); auto.
Qed.

Lemma getValueAttribute_eq sess name value st :
  getValueAttribute sess name value st =
  if isNil name then (Ok (default_null value), st)
  else if negb (isNil (old sess name)) && negb (strict_eq name (VStr "_method"))
  then (Ok (old sess name), st)
  else if negb (isNil (default_null value)) then (Ok (default_null value), st)
  else match model st with
       | Some _ => _getModelValueAttribute name st
       | None => (Ok VNull, st)
       end.
Proof.
  unfold getValueAttribute, bind, gets, ret.
  destruct (isNil name); auto.
  destruct (negb _ && negb _); auto.
  destruct (negb _); auto.
  destruct (model st); auto.
Qed.

(** C1.  For a field name that is present, [getValueAttribute] returns the
    first available of: the old input for the name, provided the name is
    not [_method]; the explicit value of the caller; the value the bound
    model has for the transformed name (through [getFormValue] when the
    model offers it, else as a property); and [null] when no model is
    bound.  For an absent name it returns the explicit value. *)
Theorem getValueAttribute_resolution
    (sess : Session) (st : State) (name value : jsval) :
  (isNil name = true ->
   getValueAttribute sess name value st = (Ok (default_null value), st))
  /\
  (forall s key, name = VStr s -> _transformKey name = Ok (VStr key) ->
     (isNil (old sess name) = false -> s <> "_method" ->
      getValueAttribute sess name value st = (Ok (old sess name), st))
     /\
     (isNil (old sess name) = true \/ s = "_method" ->
        (isNil value = false ->
         getValueAttribute sess name value st = (Ok value, st))
        /\
        (isNil value = true ->
           (forall m f, model st = Some m -> getFormValue m = Some f ->
              getValueAttribute sess name value st = (Ok (f (VStr key)), st))
           /\
           (forall m, model st = Some m -> getFormValue m = None ->
              getValueAttribute sess name value st
              = (Ok (obj_get key (fields m)), st))
           /\
           (model st = None ->
            getValueAttribute sess name value st = (Ok VNull, st))))).
Proof.
  rewrite getValueAttribute_eq.
  split.
  - intros Hn. now rewrite Hn.
  - intros s key -> Hkey.
    change (isNil (VStr s)) with false. cbv iota.
    assert (Hm : strict_eq (VStr s) (VStr "_method") = true <-> s = "_method")
      by apply String.eqb_eq.
    split.
    + intros Hold Hs. rewrite Hold.
      destruct (strict_eq (VStr s) (VStr "_method")) eqn:E; [|reflexivity].
      exfalso. apply Hs. now apply Hm.
    + intros Hfirst.
      assert (Hskip : negb (isNil (old sess (VStr s)))
                      && negb (strict_eq (VStr s) (VStr "_method")) = false).
      { destruct Hfirst as [Hold | Hs].
        - now rewrite Hold.
        - apply Hm in Hs. rewrite Hs. apply andb_false_iff. now right. }
      rewrite Hskip.
      split.
      * intros Hv.
        assert (Hd : default_null value = value)
          by (destruct value; auto; discriminate).
        now rewrite Hd, Hv.
      * intros Hv.
        assert (Hd : isNil (default_null value) = true)
          by (destruct value; auto; discriminate).
        rewrite Hd. cbn [negb]. rewrite _getModelValueAttribute_eq, Hkey.
        repeat split.
        -- intros m f Hmod Hf. now rewrite Hmod, Hf.
        -- intros m Hmod Hf. now rewrite Hmod, Hf.
        -- intros Hmod. now rewrite Hmod.
Qed.

Lemma getValueAttribute_resolution_witness :
  getValueAttribute no_session (VStr "user[address][city]") VNull city_state
  = (Ok (VStr "Paris"), city_state).
Proof.
  pose proof (getValueAttribute_resolution no_session city_state
                (VStr "user[address][city]") VNull) as [_ H].
  destruct (H "user[address][city]" "user.address.city" eq_refl eq_refl)
    as [_ H2].
  destruct (H2 (or_introl eq_refl)) as [_ H3].
  destruct (H3 eq_refl) as [_ [H4 _]].
  exact (H4 city_model eq_refl eq_refl).
Defined.

(** ** The CSRF token field *)

(** C2.  On a builder configured with any non-empty token string (the
    string starting with [c] and continuing with [t]), [token()] emits the
    hidden [_token] field with the value [UNSUPPORTED], not the token:
    the test [token.isNil || token.length] holds for every non-empty
    string. *)
Theorem token_nonempty_is_unsupported (host : Host) (c : ascii) (t : string) :
  token host no_session (new_builder (VStr (String c t)))
  = (Ok (toHtmlString
           ("<input"
            ++ html_attributes host
                 (hidden_field (VStr "_token") (VStr "UNSUPPORTED") VNull)
            ++ ">")),
     set_heap [hidden_field (VStr "_token") (VStr "UNSUPPORTED") VNull]
       (new_builder (VStr (String c t)))).
Proof. reflexivity. Qed.

(** Only the empty string comes through as configured, and an absent
    token gives the sentinel. *)
Lemma token_empty_string (host : Host) :
  fst (token host no_session (new_builder (VStr "")))
  = Ok (toHtmlString
          ("<input"
           ++ html_attributes host (hidden_field (VStr "_token") (VStr "") VNull)
           ++ ">")).
Proof. reflexivity. Qed.

Lemma token_absent (host : Host) :
  fst (token host no_session (new_builder VNull))
  = Ok (toHtmlString
          ("<input"
           ++ html_attributes host
                (hidden_field (VStr "_token") (VStr "UNSUPPORTED") VNull)
           ++ ">")).
Proof. reflexivity. Qed.

(** ** Checkbox state *)

(** C4.  [checkbox('subscribe', 1, true, {})] on a new builder, with no old
    input and no bound model, throws a TypeError: [_missingOldAndModel]
    asks the model for its value, and [this.model] is [null]. *)
Theorem checkbox_without_model_throws (host : Host) (token : jsval) :
  fst (checkbox host no_session (VStr "subscribe") (VNum 1) (VBool true) None
         (new_builder token))
  = Throw TypeError.
Proof. reflexivity. Qed.

(** With a model bound that has no value for the name, the state is the
    caller's argument and the field is rendered checked. *)
Lemma checkbox_model_without_value (host : Host) (token : jsval) :
  fst (checkbox host no_session (VStr "subscribe") (VNum 1) (VBool true) None
         (set_model (Some {| getFormValue := None; fields := [] |})
            (new_builder token)))
  = Ok (toHtmlString
          ("<input"
           ++ html_attributes host
                [("checked", VStr "checked"); ("name", VStr "subscribe");
                 ("type", VStr "checkbox"); ("value", VNum 1); ("id", VNull)]
           ++ ">")).
Proof. reflexivity. Qed.

(** ** Select *)

(** C5.  [selectRange('x', 2000, 2003)] produces no markup: on a new
    builder it throws, a ReferenceError at [html = [ ]] where no global
    [html] exists, and a TypeError at the [for ... of] loop over the range
    object where one does. *)
Theorem selectRange_2000_2003_throws
    (host : Host) (token : jsval) (g : option loc) :
  fst (selectRange host no_session (VStr "x") 2000 2003 VUndefined None
         (set_g_html g (new_builder token)))
  = Throw (match g with None => ReferenceError | Some _ => TypeError end).
Proof. destruct g; reflexivity. Qed.

(** The range object itself maps 2000 to 2003 to themselves, in ascending
    order. *)
Lemma range_2000_2003 :
  range_loop (Z.to_nat (2003 - 2000 + 1)) 2000 []
  = [("2000", VNum 2000); ("2001", VNum 2001);
     ("2002", VNum 2002); ("2003", VNum 2003)].
Proof. reflexivity. Qed.

(** ** Key transform *)

(** C7.  [_transformKey('tags[]')] is ['tags.']: the second replacement
    looks for a bracket, a space and a bracket, so an empty pair of
    brackets is not removed, and the last two replacements turn it into a
    dot. *)
Theorem transformKey_empty_brackets :
  _transformKey (VStr "tags[]") = Ok (VStr "tags.").
Proof. reflexivity. Qed.

Lemma transformKey_nested :
  _transformKey (VStr "user[address][city]") = Ok (VStr "user.address.city").
Proof. reflexivity. Qed.

Lemma transformKey_dot :
  _transformKey (VStr "a.b") = Ok (VStr "a_b").
Proof. reflexivity. Qed.

(** ** Textarea *)

(** C8.  [textarea('bio', null, {size: '40x5'})] on a new builder throws a
    TypeError: the resolved value is [null], and [toString] is called on
    it. *)
Theorem textarea_null_value_throws (host : Host) (token : jsval) :
  fst ((let* l := new_object [("size", VStr "40x5")] in
        textarea host no_session (VStr "bio") VNull (Some l))
         (new_builder token))
  = Throw TypeError.
Proof. reflexivity. Qed.

(** The size itself is resolved as described: the object the tag would be
    rendered from has [cols] 40 and [rows] 5 and no [size]. *)
Lemma textarea_size_resolved (host : Host) (token : jsval) :
  heap (snd ((let* l := new_object [("size", VStr "40x5")] in
              textarea host no_session (VStr "bio") VNull (Some l))
               (new_builder token))) !! 1%nat
  = Some [("name", VStr "bio"); ("cols", VStr "40"); ("rows", VStr "5");
          ("id", VNull)].
Proof. reflexivity. Qed.

(** Without a [size] entry, [cols] and [rows] default to 50 and 10 when
    they are not supplied. *)
Lemma _setTextAreaSize_defaults (st : State) (l : loc) (o : obj) :
  heap st !! l = Some o ->
  obj_get "size" o = VUndefined ->
  obj_get "cols" o = VUndefined ->
  obj_get "rows" o = VUndefined ->
  _setTextAreaSize l st
  = (Ok (length (heap st)),
     set_heap (heap st ++ [obj_assign (obj_assign [] o)
                             [("cols", VNum 50); ("rows", VNum 10)]])%list st).
Proof.
  intros Hl Hs Hc Hr.
  unfold _setTextAreaSize, opt_get, bind, ret.
  repeat first
    [ rewrite (read_obj_ok _ _ _ Hl) | rewrite Hs | rewrite Hc | rewrite Hr
    | progress cbn [isNil negb js_or truthy] | progress cbv beta iota ].
  reflexivity.
Qed.

(** ** In-place mutation of option objects *)

(** C10.  [select('x', [], null, {placeholder: 'Pick'})] on a new builder
    throws, and the caller's object has [id] and [name] written into it
    and still holds its [placeholder] entry: the entry is deleted only
    after [html = [ ]], which throws where no global [html] exists, and
    after [_placeholderOption], which calls [toString] on [null]. *)
Theorem select_keeps_placeholder
    (host : Host) (token : jsval) (g : option loc) :
  (let* l := new_object [("placeholder", VStr "Pick")] in
   select host no_session (VStr "x") (VArr []) VNull (Some l))
    (set_g_html g (new_builder token))
  = (Throw (match g with None => ReferenceError | Some _ => TypeError end),
     set_heap [[("placeholder", VStr "Pick"); ("id", VNull); ("name", VStr "x")]]
       (match g with
        | None => new_builder token
        | Some _ => set_g_html (Some 0%nat)
                      (set_arrays [[]] (new_builder token))
        end)).
Proof. destruct g; reflexivity. Qed.

(** ** Running [input] *)

(** What value resolution returns depends on the state through the bound
    model only. *)
Lemma getValueAttribute_pure sess name value st :
  getValueAttribute sess name value st
  = (resolved_value sess name value (model st), st).
Proof.
  unfold resolved_value.
  rewrite !getValueAttribute_eq, !_getModelValueAttribute_eq.
  destruct (isNil name); auto.
  destruct (negb _ && negb _); auto.
  destruct (negb _); auto.
  cbn [model set_model].
  destruct (model st) as [m|]; auto.
  destruct (_transformKey name); auto.
  destruct (getFormValue m); auto.
Qed.

Lemma resolved_value_string sess s value m :
  exists v, resolved_value sess (VStr s) value m = Ok v.
Proof.
  unfold resolved_value.
  rewrite getValueAttribute_eq, _getModelValueAttribute_eq.
  cbn [isNil model set_model _transformKey].
  destruct (negb _ && negb _); [eauto|].
  destruct (negb _); [eauto|].
  destruct m as [m|]; [|eauto].
  destruct (getFormValue m); eauto.
Qed.

Lemma resolved_value_explicit sess name value m :
  isNil value = false ->
  exists v, resolved_value sess name value m = Ok v /\ isNil v = false.
Proof.
  intros Hv. unfold resolved_value. rewrite getValueAttribute_eq.
  assert (Hd : default_null value = value)
    by (destruct value; auto; discriminate).
  rewrite Hd, Hv.
  destruct (isNil name); [eauto|].
  destruct (negb (isNil (old sess name))) eqn:E; cbn [andb negb]; [|eauto].
  destruct (negb (strict_eq _ _)); [|eauto].
  exists (old sess name). split; auto.
  now apply negb_true_iff in E.
Qed.

Lemma resolved_value_method sess value m :
  isNil value = false ->
  resolved_value sess (VStr "_method") value m = Ok value.
Proof.
  intros Hv. unfold resolved_value. rewrite getValueAttribute_eq.
  assert (Hd : default_null value = value)
    by (destruct value; auto; discriminate).
  rewrite Hd, Hv. cbn. now rewrite andb_false_r.
Qed.

(** Stepping through a sequence. *)
Lemma bind_ok {A B} (m : M A) (k : A -> M B) st a st' :
  m st = (Ok a, st') -> bind m k st = k a st'.
Proof. intros H. unfold bind. now rewrite H. Qed.

Lemma opt_get_run l k o st :
  heap st !! l = Some o -> opt_get l k st = (Ok (obj_get k o), st).
Proof.
  intros H. unfold opt_get. now rewrite (bind_ok _ _ _ _ _ (read_obj_ok _ _ _ H)).
Qed.

Lemma opt_set_run l k v o st :
  heap st !! l = Some o ->
  opt_set l k v st = (Ok tt, set_heap (<[l := obj_set k v o]> (heap st)) st).
Proof.
  intros H. unfold opt_set. now rewrite (bind_ok _ _ _ _ _ (read_obj_ok _ _ _ H)).
Qed.

Lemma heap_written st l o o' :
  heap st !! l = Some o ->
  heap (set_heap (<[l := o']> (heap st)) st) !! l = Some o'.
Proof. intros H. cbn [heap set_heap]. now apply (lookup_written _ _ o). Qed.

Lemma getIdAttribute_run name l o st :
  heap st !! l = Some o ->
  getIdAttribute name l st
  = (Ok (if negb (isNil (obj_get "id" o)) then obj_get "id" o
         else if index_of_ge0 name (labels st) then name else VNull), st).
Proof.
  intros H. unfold getIdAttribute.
  rewrite (bind_ok _ _ _ _ _ (opt_get_run _ _ _ _ H)).
  destruct (negb _); [reflexivity|].
  unfold bind, gets. cbv beta iota.
  now destruct (index_of_ge0 _ _).
Qed.

Create HintDb run.
#[local] Hint Resolve read_obj_ok opt_get_run opt_set_run heap_written
  getIdAttribute_run lookup_fresh : run.

Lemma input_value_run sess type name value st v :
  input_value sess type name value (model st) = Ok v ->
  (if negb (index_of_ge0 type skipValueTypes)
   then getValueAttribute sess name (default_null value)
   else ret (default_null value)) st = (Ok v, st).
Proof.
  unfold input_value. destruct (negb _).
  - intros H. now rewrite getValueAttribute_pure, H.
  - intros H. injection H as <-. reflexivity.
Qed.

Lemma input_run host sess type name value l o st v :
  heap st !! l = Some o ->
  input_value sess type name value (model st) = Ok v ->
  input host sess type name value (Some l) st
  = (Ok (toHtmlString
           ("<input"
            ++ html_attributes host (input_options type name v o (labels st))
            ++ ">")),
     set_heap (<[l := input_options type name v o (labels st)]> (heap st)) st).
Proof.
  intros Hl Hv.
  unfold input, input_options.
  erewrite bind_ok by reflexivity.
  erewrite bind_ok by eauto with run.
  destruct (isNil (obj_get "name" o)) eqn:En; cbn [when].
  - erewrite bind_ok by eauto with run.
    erewrite bind_ok by eauto with run.
    erewrite bind_ok by (apply input_value_run; exact Hv).
    erewrite bind_ok by eauto with run.
    erewrite bind_ok by reflexivity.
    erewrite bind_ok by eauto 6 with run.
    unfold ret. cbn [labels set_heap heap].
    now rewrite list_insert_insert_eq.
  - erewrite bind_ok by reflexivity.
    erewrite bind_ok by eauto with run.
    erewrite bind_ok by (apply input_value_run; exact Hv).
    erewrite bind_ok by eauto with run.
    erewrite bind_ok by reflexivity.
    erewrite bind_ok by eauto 6 with run.
    reflexivity.
Qed.

(** What [input] leaves in the caller's option object: [type], [value] and
    [id] are written, and [name] when the object had none. *)
Lemma input_mutates_options host sess type name value l o st v :
  heap st !! l = Some o ->
  input_value sess type name value (model st) = Ok v ->
  exists o',
    heap (snd (input host sess type name value (Some l) st)) !! l = Some o'
    /\ obj_get "type" o' = type
    /\ obj_get "value" o' = v
    /\ obj_get "id" o'
       = (if negb (isNil (obj_get "id" o)) then obj_get "id" o
          else if index_of_ge0 name (labels st) then name else VNull)
    /\ obj_get "name" o'
       = (if isNil (obj_get "name" o) then name else obj_get "name" o).
Proof.
  intros Hl Hv.
  rewrite (input_run _ _ _ _ _ _ _ _ _ Hl Hv).
  eexists. split; [apply (heap_written _ _ _ _ Hl)|].
  unfold input_options. cbn [obj_assign fold_left fst snd].
  assert (Hid : obj_get "id"
                  (if isNil (obj_get "name" o) then obj_set "name" name o else o)
                = obj_get "id" o).
  { destruct (isNil _); [|reflexivity]. now apply obj_get_set_ne. }
  rewrite Hid.
  repeat split.
  - rewrite !obj_get_set_ne by discriminate. apply obj_get_set_eq.
  - rewrite obj_get_set_ne by discriminate. apply obj_get_set_eq.
  - apply obj_get_set_eq.
  - rewrite !obj_get_set_ne by discriminate.
    destruct (isNil (obj_get "name" o)); [apply obj_get_set_eq | reflexivity].
Qed.

(** [input] on a fresh option object. *)
Lemma input_fresh host sess type name value st v :
  input_value sess type name value (model st) = Ok v ->
  input host sess type name value None st
  = (Ok (toHtmlString
           ("<input"
            ++ html_attributes host (input_options type name v [] (labels st))
            ++ ">")),
     set_heap (heap st ++ [input_options type name v [] (labels st)])%list st).
Proof.
  intros Hv.
  change (input host sess type name value None st)
    with (input host sess type name value (Some (length (heap st)))
            (set_heap (heap st ++ [[]])%list st)).
  erewrite input_run; [| apply lookup_fresh | exact Hv].
  cbn [labels set_heap heap].
  rewrite insert_app_r_alt by lia.
  now rewrite Nat.sub_diag.
Qed.

(** ** Opening a form *)

Lemma token_run host sess st :
  exists tok id,
    token host sess st
    = (Ok (toHtmlString
             ("<input"
              ++ html_attributes host (hidden_field (VStr "_token") tok id)
              ++ ">")),
       set_heap (heap st ++ [hidden_field (VStr "_token") tok id])%list st)
    /\ isNil tok = false.
Proof.
  unfold token.
  erewrite bind_ok by reflexivity.
  set (t := csrfToken st).
  assert (Hu : exists b, (if isNil t then ret true
                          else let* len := lift (prop t "length") in
                               ret (truthy len)) st = (Ok b, st)).
  { destruct t; cbn [isNil]; eexists; reflexivity. }
  destruct Hu as [b Hu].
  erewrite bind_ok by exact Hu.
  set (t' := if b then VStr "UNSUPPORTED" else t).
  assert (Ht : b = true \/ isNil t = false).
  { destruct (isNil t) eqn:E; [|now right].
    left. unfold ret in Hu. now injection Hu as <-. }
  assert (Ht' : isNil t' = false) by (subst t'; destruct b, Ht; auto; discriminate).
  destruct (resolved_value_explicit sess (VStr "_token") t' (model st) Ht')
    as [v [Hv Hnil]].
  assert (Hd : default_null t' = t') by (destruct t'; auto; discriminate).
  exists v, (if index_of_ge0 (VStr "_token") (labels st)
             then VStr "_token" else VNull).
  split; [|exact Hnil].
  unfold hidden.
  erewrite input_fresh; [reflexivity|].
  unfold input_value. cbn [index_of_ge0 existsb skipValueTypes strict_eq
                           String.eqb Ascii.eqb Bool.eqb orb negb].
  now rewrite !Hd.
Qed.

Lemma _getAppendage_run host sess m st :
  exists id1 tok id2 extra,
    _getAppendage host sess (VStr m) st
    = (Ok ((if index_of_ge0 (VStr (upper m)) spoofedMethods
            then "<input"
                 ++ html_attributes host
                      (hidden_field (VStr "_method") (VStr (upper m)) id1)
                 ++ ">"
            else "")
           ++
           (if negb (String.eqb (upper m) "GET")
            then "<input"
                 ++ html_attributes host (hidden_field (VStr "_token") tok id2)
                 ++ ">"
            else "")),
       set_heap (heap st ++ extra)%list st)
    /\ isNil tok = false.
Proof.
  unfold _getAppendage.
  erewrite bind_ok by reflexivity.
  set (M := upper m).
  assert (Hspoof : forall st0 : State,
            hidden host sess (VStr "_method") (VStr M) None st0
            = (Ok (toHtmlString
                     ("<input"
                      ++ html_attributes host
                           (hidden_field (VStr "_method") (VStr M)
                              (if index_of_ge0 (VStr "_method") (labels st0)
                               then VStr "_method" else VNull))
                      ++ ">")),
               set_heap (heap st0 ++
                 [hidden_field (VStr "_method") (VStr M)
                    (if index_of_ge0 (VStr "_method") (labels st0)
                     then VStr "_method" else VNull)])%list st0)).
  { intros st0. unfold hidden. erewrite input_fresh; [reflexivity|].
    unfold input_value.
    cbn [index_of_ge0 existsb skipValueTypes strict_eq
         String.eqb Ascii.eqb Bool.eqb orb negb default_null].
    now apply resolved_value_method. }
  destruct (String.eqb M "GET") eqn:Eg.
  - apply String.eqb_eq in Eg. rewrite Eg.
    exists VNull, (VStr "x"), VNull, []. split; [|reflexivity].
    cbn. rewrite app_nil_r. now destruct st.
  - destruct (index_of_ge0 (VStr M) spoofedMethods) eqn:Es.
    + erewrite bind_ok
        by (erewrite bind_ok by apply Hspoof; reflexivity).
      destruct (token_run host sess
                  (set_heap (heap st ++
                     [hidden_field (VStr "_method") (VStr M)
                        (if index_of_ge0 (VStr "_method") (labels st)
                         then VStr "_method" else VNull)])%list st))
        as [tok [id2 [Htok Hnil]]].
      eexists _, tok, id2, _. split; [|exact Hnil].
      cbn [negb].
      erewrite bind_ok
        by (erewrite bind_ok by exact Htok; reflexivity).
      unfold ret. cbn [heap set_heap html_text labels].
      rewrite <- app_assoc. reflexivity.
    + erewrite bind_ok by reflexivity.
      destruct (token_run host sess st) as [tok [id2 [Htok Hnil]]].
      exists VNull, tok, id2, [hidden_field (VStr "_token") tok id2].
      split; [|exact Hnil].
      cbn [negb].
      erewrite bind_ok
        by (erewrite bind_ok by exact Htok; reflexivity).
      reflexivity.
Qed.

Lemma _getAction_run host l o st :
  heap st !! l = Some o -> exists a, _getAction host l st = (Ok a, st).
Proof.
  intros Hl. unfold _getAction.
  erewrite bind_ok by eauto with run.
  destruct (negb (isNil (obj_get "url" o))); [eexists; reflexivity|].
  erewrite bind_ok by eauto with run.
  destruct (negb _); eexists; reflexivity.
Qed.

(** C3.  For an options object whose [method] entry is a string [m], or is
    absent or falsy so that [m] is the default [post], [open(options)]
    returns the opening form tag followed by the appendage: a hidden
    [_method] field holding the uppercased method exactly when that is one
    of DELETE, PATCH and PUT, and then a hidden [_token] field exactly when
    it is not GET. *)
Theorem open_tag_and_appendage
    (host : Host) (sess : Session) (st : State) (l : loc) (o : obj)
    (m : string) :
  heap st !! l = Some o ->
  js_or (obj_get "method" o) (VStr "post") = VStr m ->
  exists attrs id1 tok id2 st',
    open host sess (Some l) st
    = (Ok (toHtmlString
             ("<form" ++ html_attributes host attrs ++ ">"
              ++ ((if index_of_ge0 (VStr (upper m)) spoofedMethods
                   then "<input"
                        ++ html_attributes host
                             (hidden_field (VStr "_method") (VStr (upper m)) id1)
                        ++ ">"
                   else "")
                  ++
                  (if negb (String.eqb (upper m) "GET")
                   then "<input"
                        ++ html_attributes host
                             (hidden_field (VStr "_token") tok id2)
                        ++ ">"
                   else "")))),
       st')
    /\ isNil tok = false
    /\ labels st' = labels st.
Proof.
  intros Hl Hm.
  unfold open.
  erewrite bind_ok by reflexivity.
  erewrite bind_ok by eauto with run.
  rewrite Hm.
  erewrite bind_ok by reflexivity.
  destruct (_getAction_run host l o st Hl) as [a Ha].
  erewrite bind_ok by exact Ha.
  destruct (_getAppendage_run host sess m st)
    as [id1 [tok [id2 [extra [Happ Hnil]]]]].
  erewrite bind_ok by exact Happ.
  assert (Hl2 : heap (set_heap (heap st ++ extra)%list st) !! l = Some o).
  { cbn [heap set_heap]. apply lookup_app_l_Some, Hl. }
  erewrite bind_ok by (apply opt_get_run; exact Hl2).
  destruct (negb (isNil (obj_get "files" o))); cbn [when].
  - erewrite bind_ok by (apply opt_set_run; exact Hl2).
    erewrite bind_ok by eauto with run.
    eexists _, id1, tok, id2, _.
    split; [reflexivity|]. split; [exact Hnil|reflexivity].
  - erewrite bind_ok by reflexivity.
    erewrite bind_ok by (apply read_obj_ok; exact Hl2).
    eexists _, id1, tok, id2, _.
    split; [reflexivity|]. split; [exact Hnil|reflexivity].
Qed.

Lemma open_tag_and_appendage_witness :
  exists attrs id1 tok id2 st',
    open Demo.host no_session (Some 0%nat)
      (set_heap [put_options] (new_builder VNull))
    = (Ok (toHtmlString
             ("<form" ++ Demo.attributes attrs ++ ">"
              ++ (("<input"
                   ++ Demo.attributes
                        (hidden_field (VStr "_method") (VStr "PUT") id1)
                   ++ ">")
                  ++
                  ("<input"
                   ++ Demo.attributes (hidden_field (VStr "_token") tok id2)
                   ++ ">")))),
       st')
    /\ isNil tok = false
    /\ labels st' = [].
Proof.
  exact (open_tag_and_appendage Demo.host no_session
           (set_heap [put_options] (new_builder VNull)) 0%nat put_options
           "put" eq_refl eq_refl).
Defined.

(** The two examples of the specification on the concrete host. *)
Example open_put_example :
  fst ((let* l := new_object put_options in
        open Demo.host no_session (Some l)) (new_builder VNull))
  = Ok (toHtmlString
          ("<form method=" ++ dq ++ "POST" ++ dq
           ++ " action=" ++ dq ++ "/items/5" ++ dq
           ++ " accept-charset=" ++ dq ++ "UTF-8" ++ dq ++ ">"
           ++ "<input name=" ++ dq ++ "_method" ++ dq
           ++ " type=" ++ dq ++ "hidden" ++ dq
           ++ " value=" ++ dq ++ "PUT" ++ dq ++ ">"
           ++ "<input name=" ++ dq ++ "_token" ++ dq
           ++ " type=" ++ dq ++ "hidden" ++ dq
           ++ " value=" ++ dq ++ "UNSUPPORTED" ++ dq ++ ">")).
Proof. reflexivity. Qed.

Example open_get_example :
  fst ((let* l := new_object [("method", VStr "GET")] in
        open Demo.host no_session (Some l)) (new_builder VNull))
  = Ok (toHtmlString
          ("<form method=" ++ dq ++ "GET" ++ dq
           ++ " action=" ++ dq ++ "/current" ++ dq
           ++ " accept-charset=" ++ dq ++ "UTF-8" ++ dq ++ ">")).
Proof. reflexivity. Qed.

Example open_default_method_example :
  fst (open Demo.host no_session None (new_builder VNull))
  = Ok (toHtmlString
          ("<form method=" ++ dq ++ "POST" ++ dq
           ++ " action=" ++ dq ++ "/current" ++ dq
           ++ " accept-charset=" ++ dq ++ "UTF-8" ++ dq ++ ">"
           ++ "<input name=" ++ dq ++ "_token" ++ dq
           ++ " type=" ++ dq ++ "hidden" ++ dq
           ++ " value=" ++ dq ++ "UNSUPPORTED" ++ dq ++ ">")).
Proof. reflexivity. Qed.

(** ** Label tracking *)

Lemma keeps_ret {A} (a : A) : keeps_labels (ret a).
Proof. now intros st. Qed.

Lemma keeps_throw {A} e : keeps_labels (@throw A e).
Proof. now intros st. Qed.

Lemma keeps_lift {A} (r : Res A) : keeps_labels (lift r).
Proof. now intros st. Qed.

Lemma keeps_gets {A} (f : State -> A) : keeps_labels (gets f).
Proof. now intros st. Qed.

Lemma keeps_bind {A B} (m : M A) (k : A -> M B) :
  keeps_labels m -> (forall a, keeps_labels (k a)) -> keeps_labels (bind m k).
Proof.
  intros Hm Hk st. unfold bind.
  specialize (Hm st). destruct (m st) as [[a|e] st']; cbn [snd] in *.
  - now rewrite Hk.
  - exact Hm.
Qed.

Lemma keeps_new_object o : keeps_labels (new_object o).
Proof. now intros st. Qed.

Lemma keeps_read_obj l : keeps_labels (read_obj l).
Proof. intros st. unfold read_obj. now destruct (heap st !! l). Qed.

Lemma keeps_write_obj l o : keeps_labels (write_obj l o).
Proof. now intros st. Qed.

Create HintDb keeps.
#[local] Hint Resolve keeps_ret keeps_throw keeps_lift keeps_gets
  keeps_new_object keeps_read_obj keeps_write_obj : keeps.

(** Splits a computation along its sequencing and its branches. *)
Ltac keeps :=
  repeat first
    [ solve [auto with keeps]
    | apply keeps_bind; [| intros ?]
    | match goal with
      | |- keeps_labels (if ?b then _ else _) => destruct b
      | |- keeps_labels (match ?x with _ => _ end) => destruct x
      end ].

Lemma keeps_opt_get l k : keeps_labels (opt_get l k).
Proof. unfold opt_get. keeps. Qed.

Lemma keeps_opt_set l k v : keeps_labels (opt_set l k v).
Proof. unfold opt_set. keeps. Qed.

Lemma keeps_default_options o : keeps_labels (default_options o).
Proof. unfold default_options. keeps. Qed.

#[local] Hint Resolve keeps_opt_get keeps_opt_set keeps_default_options : keeps.

Lemma keeps_getValueAttribute sess name value :
  keeps_labels (getValueAttribute sess name value).
Proof. intros st. now rewrite getValueAttribute_state. Qed.

Lemma keeps_getIdAttribute name l : keeps_labels (getIdAttribute name l).
Proof. unfold getIdAttribute. keeps. Qed.

#[local] Hint Resolve keeps_getValueAttribute keeps_getIdAttribute : keeps.

Lemma keeps_input host sess type name value options :
  keeps_labels (input host sess type name value options).
Proof. unfold input, when. keeps. Qed.

#[local] Hint Resolve keeps_input : keeps.

Lemma keeps_token host sess : keeps_labels (token host sess).
Proof. unfold token, hidden. keeps. Qed.

Lemma keeps__getAction host l : keeps_labels (_getAction host l).
Proof. unfold _getAction. keeps. Qed.

#[local] Hint Resolve keeps_token keeps__getAction : keeps.

Lemma keeps__getAppendage host sess method :
  keeps_labels (_getAppendage host sess method).
Proof. unfold _getAppendage, hidden. keeps. Qed.

#[local] Hint Resolve keeps__getAppendage : keeps.

Lemma keeps_open host sess options : keeps_labels (open host sess options).
Proof. unfold open, when. keeps. Qed.

(** C9, as the code has it.  [open(options)] never touches the label
    tracking: whatever the options and the state, and whether it returns
    or throws, the labels after the call are the labels before it.  The
    method that empties them is [close()]. *)
Theorem open_keeps_labels
    (host : Host) (sess : Session) (options : option loc) (st : State) :
  labels (snd (open host sess options st)) = labels st
  /\ labels (snd (close st)) = [].
Proof.
  split.
  - apply keeps_open.
  - reflexivity.
Qed.

(** C9, as stated, fails: a label recorded before [open({})] is still
    recorded after it returns. *)
Lemma open_does_not_reset_labels :
  let r := (open Demo.host no_session None ;;
            label Demo.host (VStr "a") VUndefined None VUndefined ;;
            open Demo.host no_session None) (new_builder VNull) in
  (exists h, fst r = Ok h)
  /\ labels (snd r) = [VStr "a"]
  /\ labels (snd r) <> [].
Proof.
  cbv zeta. split; [vm_compute; eexists; reflexivity|].
  split; [reflexivity | vm_compute; discriminate].
Qed.

(** ** Labels and ids *)

Lemma label_run host name st :
  label host name VUndefined None VUndefined st
  = (match _formatLabel name VNull with
     | Ok text =>
         Ok (toHtmlString
               ("<label for=" ++ dq ++ to_str name ++ dq
                ++ html_attributes host [] ++ ">"
                ++ html_entities host text ++ "</label>"))
     | Throw e => Throw e
     end,
     set_labels (labels st ++ [name])%list
       (set_heap (heap st ++ [[]])%list st)).
Proof.
  unfold label.
  erewrite bind_ok by reflexivity.
  erewrite bind_ok by reflexivity.
  erewrite bind_ok by (apply read_obj_ok; cbn [heap set_labels set_heap];
                       apply lookup_fresh).
  cbn [default_null default_to truthy].
  unfold bind, lift, ret. now destruct (_formatLabel name VNull).
Qed.

(** C6, as the code has it.  [label('first_name')] renders a label with
    [for] set to [first_name] and the text [First Name], every word
    capitalised, and records the name; an [input('text', 'first_name')]
    after it, with no options, is rendered from an attribute map whose
    [id] is [first_name]. *)
Theorem label_first_name_then_input
    (host : Host) (sess : Session) (st : State) :
  exists st1 v st2,
    label host (VStr "first_name") VUndefined None VUndefined st
    = (Ok (toHtmlString
             ("<label for=" ++ dq ++ "first_name" ++ dq
              ++ html_attributes host [] ++ ">"
              ++ html_entities host (VStr "First Name") ++ "</label>")),
       st1)
    /\
    input host sess (VStr "text") (VStr "first_name") VUndefined None st1
    = (Ok (toHtmlString
             ("<input"
              ++ html_attributes host
                   [("name", VStr "first_name"); ("type", VStr "text");
                    ("value", v); ("id", VStr "first_name")]
              ++ ">")),
       st2).
Proof.
  destruct (resolved_value_string sess "first_name" VNull (model st))
    as [v Hv].
  eexists _, v, _. split.
  - rewrite label_run. reflexivity.
  - erewrite input_fresh by exact Hv.
    unfold input_options, index_of_ge0. cbn [labels set_labels].
    rewrite existsb_app. cbn [existsb strict_eq].
    rewrite String.eqb_refl, orb_true_r. reflexivity.
Qed.

(** C6, as stated, fails on the text: the label of [first_name] does not
    read [First name]. *)
Lemma label_first_name_text :
  fst (label Demo.host (VStr "first_name") VUndefined None VUndefined
         (new_builder VNull))
  <> Ok (toHtmlString
           ("<label for=" ++ dq ++ "first_name" ++ dq ++ ">"
            ++ "First name" ++ "</label>")).
Proof. vm_compute. discriminate. Qed.

Example label_first_name_example :
  fst (label Demo.host (VStr "first_name") VUndefined None VUndefined
         (new_builder VNull))
  = Ok (toHtmlString
          ("<label for=" ++ dq ++ "first_name" ++ dq ++ ">"
           ++ "First Name" ++ "</label>")).
Proof. reflexivity. Qed.

Example input_after_label_example :
  fst ((label Demo.host (VStr "first_name") VUndefined None VUndefined ;;
        input Demo.host no_session (VStr "text") (VStr "first_name")
          VUndefined None) (new_builder VNull))
  = Ok (toHtmlString
          ("<input name=" ++ dq ++ "first_name" ++ dq
           ++ " type=" ++ dq ++ "text" ++ dq
           ++ " id=" ++ dq ++ "first_name" ++ dq ++ ">")).
Proof. reflexivity. Qed.

(** ** Reusing an option object *)

(** One option object passed to two calls: the [name] written by the first
    call is still there for the second, which therefore renders the first
    field's name. *)
Example options_reuse_example :
  fst ((let* o := new_object [] in
        text Demo.host no_session (VStr "first") (VStr "a") (Some o) ;;
        text Demo.host no_session (VStr "second") (VStr "b") (Some o))
         (new_builder VNull))
  = Ok (toHtmlString
          ("<input name=" ++ dq ++ "first" ++ dq
           ++ " type=" ++ dq ++ "text" ++ dq
           ++ " value=" ++ dq ++ "b" ++ dq ++ ">")).
Proof. reflexivity. Qed.

(** A checkbox whose state resolves to checked leaves [checked] in the
    caller's object. *)
Example checkbox_mutates_options_example :
  heap (snd ((let* o := new_object [] in
              checkbox Demo.host no_session (VStr "subscribe") (VNum 1)
                (VBool true) (Some o))
               (set_model (Some {| getFormValue := None; fields := [] |})
                  (new_builder VNull)))) !! 0%nat
  = Some [("checked", VStr "checked"); ("name", VStr "subscribe");
          ("type", VStr "checkbox"); ("value", VNum 1); ("id", VNull)].
Proof. reflexivity. Qed.

(** Where a global [html] exists and the selected value is an array,
    [select] runs to its end and the placeholder entry is deleted. *)
Example select_placeholder_deleted_example :
  heap (snd ((let* o := new_object [("placeholder", VStr "Pick")] in
              select Demo.host no_session (VStr "x") (VArr [])
                (VArr [VStr "a"]) (Some o))
               (set_g_html (Some 0%nat) (new_builder VNull)))) !! 0%nat
  = Some [("id", VNull); ("name", VStr "x")].
Proof. reflexivity. Qed.

(** * Further properties *)

(** ** Calls that always throw *)

Lemma throws_bind_l {A B} (m : M A) (k : A -> M B) :
  throws m -> throws (bind m k).
Proof.
  intros Hm st. destruct (Hm st) as [e He]. exists e.
  unfold bind. destruct (m st) as [[a|e'] st']; cbn [fst] in *; congruence.
Qed.

Lemma throws_bind_r {A B} (m : M A) (k : A -> M B) :
  (forall a, throws (k a)) -> throws (bind m k).
Proof.
  intros Hk st. unfold bind. destruct (m st) as [[a|e] st'].
  - apply Hk.
  - now exists e.
Qed.

Lemma throws_lift {A} e : throws (@lift A (Throw e)).
Proof. intros st. now exists e. Qed.

Lemma throws_throw {A} e : throws (@throw A e).
Proof. intros st. now exists e. Qed.

(** X1.  [select] never returns when its list is a plain object (a mapping
    from keys to display texts), whatever the name, the selected value, the
    options, the session and the state: the [for ... of] loop over the list
    throws, if nothing before it has thrown. *)
Theorem select_object_list_throws
    (host : Host) (sess : Session) (name selected : jsval)
    (props : obj) (options : option loc) (st : State) :
  exists e,
    fst (select host sess name (VObj props) selected options st) = Throw e.
Proof.
  revert st. change (throws (select host sess name (VObj props) selected options)).
  unfold select. cbn [default_to].
  repeat first
    [ apply throws_bind_l; apply throws_lift
    | apply throws_bind_r; intros ? ].
Qed.


Lemma bind_fails {A B} (m : M A) (k : A -> M B) st e st' :
  m st = (Throw e, st') -> bind m k st = (Throw e, st').
Proof. intros H. unfold bind. now rewrite H. Qed.

Lemma _missingOldAndModel_no_model name st :
  model st = None ->
  _missingOldAndModel no_session name st = (Throw TypeError, st).
Proof.
  intros Hm. unfold _missingOldAndModel. cbn [old no_session isNil negb].
  apply bind_fails. rewrite _getModelValueAttribute_eq, Hm.
  unfold _transformKey. now destruct name.
Qed.

Lemma _checkable_no_model host type name value checked l st :
  model st = None ->
  type = VStr "checkbox" \/ type = VStr "radio" ->
  _checkable host no_session type name value checked l st
  = (Throw TypeError, st).
Proof.
  intros Hm [-> | ->]; unfold _checkable; apply bind_fails;
    unfold _getCheckedState; cbn [strict_eq String.eqb Ascii.eqb Bool.eqb];
    unfold _getCheckboxCheckedState, _getRadioCheckedState;
    cbn [oldInputIsEmpty no_session negb andb];
    apply bind_fails; now apply _missingOldAndModel_no_model.
Qed.

(** X3.  While no model is bound (and the session has no old input, as in
    the source), every [checkbox] and every [radio] call throws a
    TypeError, whatever the name, value, checked argument and options. *)
Theorem checkable_without_model_throws
    (host : Host) (name value checked : jsval) (options : option loc)
    (st : State) :
  model st = None ->
  fst (checkbox host no_session name value checked options st) = Throw TypeError
  /\
  fst (radio host no_session name value checked options st) = Throw TypeError.
Proof.
  intros Hm.
  assert (Hd : exists l st', default_options options st = (Ok l, st')
                             /\ model st' = None).
  { destruct options as [l|]; eexists _, _; (split; [reflexivity|exact Hm]). }
  destruct Hd as [l [st' [Hd Hm']]].
  split.
  - unfold checkbox. erewrite bind_ok by exact Hd.
    rewrite _checkable_no_model; auto.
  - unfold radio. erewrite bind_ok by exact Hd.
    rewrite _checkable_no_model; auto.
Qed.

Lemma checkable_without_model_throws_witness :
  fst (checkbox Demo.host no_session (VStr "terms") VUndefined VUndefined None
         (new_builder VNull)) = Throw TypeError
  /\
  fst (radio Demo.host no_session (VStr "colour") (VStr "red") VUndefined None
         (new_builder VNull)) = Throw TypeError.
Proof.
  pose proof (checkable_without_model_throws Demo.host (VStr "terms")
                VUndefined VUndefined None (new_builder VNull) eq_refl)
    as [H _].
  pose proof (checkable_without_model_throws Demo.host (VStr "colour")
                (VStr "red") VUndefined None (new_builder VNull) eq_refl)
    as [_ H'].
  split; assumption.
Defined.

(** ** Checked state *)

(** Entries of the object [input] leaves behind. *)
Lemma input_options_type type name v o ls :
  obj_get "type" (input_options type name v o ls) = type.
Proof.
  unfold input_options. cbn [obj_assign fold_left fst snd].
  rewrite !obj_get_set_ne by discriminate. apply obj_get_set_eq.
Qed.

Lemma input_options_value type name v o ls :
  obj_get "value" (input_options type name v o ls) = v.
Proof.
  unfold input_options. cbn [obj_assign fold_left fst snd].
  rewrite obj_get_set_ne by discriminate. apply obj_get_set_eq.
Qed.

Lemma input_options_other k type name v o ls :
  k <> "name" -> k <> "type" -> k <> "value" -> k <> "id" ->
  obj_get k (input_options type name v o ls) = obj_get k o.
Proof.
  intros Hn Ht Hv Hi.
  unfold input_options. cbn [obj_assign fold_left fst snd].
  rewrite !obj_get_set_ne by congruence.
  destruct (isNil (obj_get "name" o)); [|reflexivity].
  apply obj_get_set_ne. congruence.
Qed.

Lemma input_value_skipped sess type name value m :
  index_of_ge0 type skipValueTypes = true ->
  input_value sess type name value m = Ok (default_null value).
Proof. intros H. unfold input_value. now rewrite H. Qed.

(** X4.  Once the session holds old input that has no entry for the name,
    [checkbox] renders the box unchecked: it adds no [checked] entry,
    whatever the checked argument and whatever the bound model (or none),
    and it does not throw. *)
Theorem checkbox_old_input_without_name
    (host : Host) (sess : Session) (name value checked : jsval)
    (l : loc) (o : obj) (st : State) :
  oldInputIsEmpty sess = false ->
  isNil (old sess name) = true ->
  heap st !! l = Some o ->
  exists o',
    checkbox host sess name value checked (Some l) st
    = (Ok (toHtmlString ("<input" ++ html_attributes host o' ++ ">")),
       set_heap (<[l := o']> (heap st)) st)
    /\ obj_get "checked" o' = obj_get "checked" o
    /\ obj_get "type" o' = VStr "checkbox"
    /\ obj_get "value" o' = default_null (default_to (VNum 1) value).
Proof.
  intros He Hold Hl.
  eexists. split.
  - unfold checkbox. erewrite bind_ok by reflexivity.
    unfold _checkable.
    erewrite bind_ok.
    2:{ unfold _getCheckedState. cbn [strict_eq String.eqb Ascii.eqb Bool.eqb].
        unfold _getCheckboxCheckedState. rewrite He, Hold. reflexivity. }
    cbn [truthy when]. erewrite bind_ok by reflexivity.
    eapply input_run; [exact Hl|].
    now apply input_value_skipped.
  - split; [|split].
    + now apply input_options_other.
    + apply input_options_type.
    + apply input_options_value.
Qed.

Lemma checkbox_old_input_without_name_witness :
  exists o',
    checkbox Demo.host email_session (VStr "subscribe") (VNum 1) (VBool true)
      (Some 0%nat) (set_heap [[]] (new_builder VNull))
    = (Ok (toHtmlString ("<input" ++ Demo.attributes o' ++ ">")),
       set_heap (<[0%nat := o']> [[]]) (set_heap [[]] (new_builder VNull)))
    /\ obj_get "checked" o' = VUndefined
    /\ obj_get "type" o' = VStr "checkbox"
    /\ obj_get "value" o' = VNum 1.
Proof.
  exact (checkbox_old_input_without_name Demo.host email_session
           (VStr "subscribe") (VNum 1) (VBool true) 0%nat []
           (set_heap [[]] (new_builder VNull)) eq_refl eq_refl eq_refl).
Defined.

Lemma _missingOldAndModel_bound name key m st :
  model st = Some m ->
  _transformKey name = Ok key ->
  _missingOldAndModel no_session name st
  = (Ok (isNil (match getFormValue m with
                | Some f => f key
                | None => obj_get (to_str key) (fields m)
                end)), st).
Proof.
  intros Hm Hk. unfold _missingOldAndModel. cbn [old no_session isNil negb].
  unfold bind. rewrite _getModelValueAttribute_eq, Hk, Hm.
  now destruct (getFormValue m).
Qed.

(** X5.  With a model bound (and no old input, as in the source), the
    state of a checkbox named [s] is: the checked argument as given when
    the model has no value for the transformed name; otherwise the posted
    value decides, and the posted value is the checked argument whenever
    that is given, the model's value only when it is not.  A posted array
    checks the box when it contains the box's value, anything else is cast
    to a boolean. *)
Theorem checkbox_state_with_model
    (host : Host) (st : State) (s key : string) (m : Model)
    (value checked : jsval) :
  model st = Some m ->
  _transformKey (VStr s) = Ok (VStr key) ->
  let mv := match getFormValue m with
            | Some f => f (VStr key)
            | None => obj_get key (fields m)
            end in
  let posted := if isNil checked then mv else checked in
  _getCheckboxCheckedState host no_session (VStr s) value checked st
  = (Ok (if isNil mv then checked
         else VBool (match posted with
                     | VArr xs => index_of_ge0 value xs
                     | _ => cast_boolean host posted
                     end)), st).
Proof.
  intros Hm Hk mv posted.
  unfold _getCheckboxCheckedState. cbn [oldInputIsEmpty no_session negb andb].
  erewrite bind_ok by (apply (_missingOldAndModel_bound _ _ _ _ Hm Hk)).
  cbn [to_str]. fold mv.
  destruct (isNil mv) eqn:Emv; [reflexivity|].
  unfold bind. rewrite getValueAttribute_eq, _getModelValueAttribute_eq, Hk, Hm.
  cbn [isNil old no_session negb andb to_str].
  assert (Hp : (if negb (isNil (default_null checked))
                then (Ok (default_null checked), st)
                else match getFormValue m with
                     | Some f => (Ok (f (VStr key)), st)
                     | None => (Ok (obj_get key (fields m)), st)
                     end) = (Ok posted, st)).
  { subst posted mv. destruct checked; cbn; try reflexivity;
      now destruct (getFormValue m). }
  rewrite Hp. now destruct posted.
Qed.

Lemma checkbox_state_with_model_witness :
  _getCheckboxCheckedState Demo.host no_session (VStr "newsletter") (VNum 1)
    (VBool false) flag_state
  = (Ok (VBool false), flag_state).
Proof.
  exact (checkbox_state_with_model Demo.host flag_state "newsletter"
           "newsletter" flag_model (VNum 1) (VBool false) eq_refl eq_refl).
Defined.

Lemma _checkable_run host sess type name value checked c l o st :
  _getCheckedState host sess type name value checked st = (Ok c, st) ->
  heap st !! l = Some o ->
  index_of_ge0 type skipValueTypes = true ->
  let o1 := if truthy c then obj_set "checked" (VStr "checked") o else o in
  let o' := input_options type name (default_null value) o1 (labels st) in
  _checkable host sess type name value checked l st
  = (Ok (toHtmlString ("<input" ++ html_attributes host o' ++ ">")),
     set_heap (<[l := o']> (heap st)) st).
Proof.
  intros Hc Hl Ht o1 o'. unfold _checkable.
  erewrite bind_ok by exact Hc.
  subst o' o1. destruct (truthy c); cbn [when].
  - erewrite bind_ok by (apply (opt_set_run _ _ _ _ _ Hl)).
    erewrite input_run;
      [| apply (heap_written _ _ _ _ Hl) | now apply input_value_skipped ].
    cbn [heap set_heap labels]. now rewrite list_insert_insert_eq.
  - erewrite bind_ok by reflexivity.
    erewrite input_run; [reflexivity | exact Hl |].
    now apply input_value_skipped.
Qed.

(** X6.  With a model bound (and no old input, as in the source), [radio]
    renders a button whose value is the given value, or the name when no
    value is given, and which is checked as follows: when the model has a
    value for the transformed name, exactly when that value is strictly
    equal to the button's value (the checked argument is not looked at);
    when it has none, when the checked argument is truthy.  A checked
    button gets [checked] written into the caller's options. *)
Theorem radio_with_model
    (host : Host) (st : State) (s key : string) (m : Model)
    (value checked : jsval) (l : loc) (o : obj) :
  model st = Some m ->
  _transformKey (VStr s) = Ok (VStr key) ->
  heap st !! l = Some o ->
  let mv := match getFormValue m with
            | Some f => f (VStr key)
            | None => obj_get key (fields m)
            end in
  let value' := if isNil value then VStr s else value in
  let is_checked :=
    if isNil mv then truthy checked else strict_eq mv value' in
  exists o',
    radio host no_session (VStr s) value checked (Some l) st
    = (Ok (toHtmlString ("<input" ++ html_attributes host o' ++ ">")),
       set_heap (<[l := o']> (heap st)) st)
    /\ obj_get "type" o' = VStr "radio"
    /\ obj_get "value" o' = value'
    /\ obj_get "checked" o'
       = (if is_checked then VStr "checked" else obj_get "checked" o).
Proof.
  intros Hm Hk Hl mv value' is_checked.
  assert (Hv : (if isNil (default_null value) then VStr s
                else default_null value) = value')
    by (subst value'; now destruct value).
  assert (Hnn : default_null value' = value')
    by (subst value'; now destruct value).
  set (c := if isNil mv then default_null checked
            else VBool (strict_eq mv value')).
  assert (Hc : _getCheckedState host no_session (VStr "radio") (VStr s)
                 value' (default_null checked) st = (Ok c, st)).
  { unfold _getCheckedState. cbn [strict_eq String.eqb Ascii.eqb Bool.eqb].
    unfold _getRadioCheckedState.
    erewrite bind_ok by (apply (_missingOldAndModel_bound _ _ _ _ Hm Hk)).
    cbn [to_str]. fold mv. subst c.
    destruct (isNil mv) eqn:Emv; [reflexivity|].
    unfold bind.
    rewrite getValueAttribute_eq, _getModelValueAttribute_eq, Hk, Hm.
    cbn [isNil old no_session negb andb to_str default_null].
    fold mv. now destruct (getFormValue m). }
  assert (Htr : truthy c = is_checked).
  { subst c is_checked. destruct (isNil mv).
    - now destruct checked.
    - reflexivity. }
  eexists. split.
  - unfold radio. erewrite bind_ok by reflexivity. rewrite Hv.
    eapply _checkable_run; [exact Hc | exact Hl | reflexivity].
  - cbv zeta. rewrite Htr, Hnn.
    split; [apply input_options_type|].
    split; [apply input_options_value|].
    rewrite input_options_other by discriminate.
    destruct is_checked; [apply obj_get_set_eq | reflexivity].
Qed.

Lemma radio_with_model_witness :
  exists o',
    radio Demo.host no_session (VStr "colour") (VStr "red") (VBool false)
      (Some 0%nat) colour_state
    = (Ok (toHtmlString ("<input" ++ Demo.attributes o' ++ ">")),
       set_heap (<[0%nat := o']> [[]]) colour_state)
    /\ obj_get "type" o' = VStr "radio"
    /\ obj_get "value" o' = VStr "red"
    /\ obj_get "checked" o' = VStr "checked".
Proof.
  exact (radio_with_model Demo.host colour_state "colour" "colour"
           colour_model (VStr "red") (VBool false) 0%nat []
           eq_refl eq_refl eq_refl).
Defined.

(** ** Fields that are never filled in *)

(** X7.  [password] and [file] never take their value from the old input or
    from the bound model: for every session, state and name, a password
    field is rendered with the empty string as its value and a file field
    with [null], and neither call throws. *)
Theorem password_and_file_are_never_filled
    (host : Host) (sess : Session) (name : jsval)
    (l : loc) (o : obj) (st : State) :
  heap st !! l = Some o ->
  (exists o',
     password host sess name (Some l) st
     = (Ok (toHtmlString ("<input" ++ html_attributes host o' ++ ">")),
        set_heap (<[l := o']> (heap st)) st)
     /\ obj_get "type" o' = VStr "password"
     /\ obj_get "value" o' = VStr "")
  /\
  (exists o',
     file host sess name (Some l) st
     = (Ok (toHtmlString ("<input" ++ html_attributes host o' ++ ">")),
        set_heap (<[l := o']> (heap st)) st)
     /\ obj_get "type" o' = VStr "file"
     /\ obj_get "value" o' = VNull).
Proof.
  intros Hl. split; eexists; (split;
    [ eapply input_run; [exact Hl | now apply input_value_skipped]
    | split; [apply input_options_type | apply input_options_value] ]).
Qed.

Lemma password_and_file_are_never_filled_witness :
  exists o',
    password Demo.host secret_session (VStr "secret") (Some 0%nat) secret_state
    = (Ok (toHtmlString ("<input" ++ Demo.attributes o' ++ ">")),
       set_heap (<[0%nat := o']> [[]]) secret_state)
    /\ obj_get "type" o' = VStr "password"
    /\ obj_get "value" o' = VStr "".
Proof.
  exact (proj1 (password_and_file_are_never_filled Demo.host secret_session
                  (VStr "secret") 0%nat [] secret_state eq_refl)).
Defined.

(** X8.  A field without a name is not resolved either: for every session
    and state, [submit] renders the value it is given ([null] when none
    is), with [name] left as the options have it or [null]. *)
Theorem submit_value_is_not_resolved
    (host : Host) (sess : Session) (value : jsval)
    (l : loc) (o : obj) (st : State) :
  heap st !! l = Some o ->
  exists o',
    submit host sess value (Some l) st
    = (Ok (toHtmlString ("<input" ++ html_attributes host o' ++ ">")),
       set_heap (<[l := o']> (heap st)) st)
    /\ obj_get "type" o' = VStr "submit"
    /\ obj_get "value" o' = default_null value
    /\ obj_get "name" o'
       = (if isNil (obj_get "name" o) then VNull else obj_get "name" o).
Proof.
  intros Hl. eexists. split.
  - eapply (input_run _ _ _ _ _ _ _ _ (default_null value)); [exact Hl|].
    unfold input_value, resolved_value. rewrite getValueAttribute_eq.
    cbn [isNil fst]. now destruct value.
  - split; [apply input_options_type|].
    split; [apply input_options_value|].
    unfold input_options. cbn [obj_assign fold_left fst snd].
    rewrite !obj_get_set_ne by discriminate.
    destruct (isNil (obj_get "name" o)); [apply obj_get_set_eq | reflexivity].
Qed.

Lemma submit_value_is_not_resolved_witness :
  exists o',
    submit Demo.host secret_session (VStr "Send") (Some 0%nat) secret_state
    = (Ok (toHtmlString ("<input" ++ Demo.attributes o' ++ ">")),
       set_heap (<[0%nat := o']> [[]]) secret_state)
    /\ obj_get "type" o' = VStr "submit"
    /\ obj_get "value" o' = VStr "Send"
    /\ obj_get "name" o' = VNull.
Proof.
  exact (submit_value_is_not_resolved Demo.host secret_session (VStr "Send")
           0%nat [] secret_state eq_refl).
Defined.

(** ** What [input] does to the state *)

Lemma input_value_total sess type name value m :
  (exists s, name = VStr s) \/ isNil name = true ->
  exists v, input_value sess type name value m = Ok v.
Proof.
  intros Hn. unfold input_value. destruct (negb _); [|eauto].
  destruct Hn as [[s ->] | Hn].
  - apply resolved_value_string.
  - unfold resolved_value. rewrite getValueAttribute_eq, Hn. cbn. eauto.
Qed.

(** X9.  For a name that is a string or absent, [input] never throws,
    whatever the type, the value, the session and the model.  It writes
    [type], [value] and [id] into the caller's option object, and [name]
    when the object had none; every other entry of the object and the rest
    of the state are left as they were.  The [id] is the one the object
    had, else the name when a label was emitted for it, else [null]; the
    [value] is the given one for the types that are never filled in and
    the resolved one otherwise. *)
Theorem input_writes_caller_options
    (host : Host) (sess : Session) (type name value : jsval)
    (l : loc) (o : obj) (st : State) :
  heap st !! l = Some o ->
  (exists s, name = VStr s) \/ isNil name = true ->
  exists o',
    input host sess type name value (Some l) st
    = (Ok (toHtmlString ("<input" ++ html_attributes host o' ++ ">")),
       set_heap (<[l := o']> (heap st)) st)
    /\ obj_get "type" o' = type
    /\ (if index_of_ge0 type skipValueTypes
        then obj_get "value" o' = default_null value
        else getValueAttribute sess name value st
             = (Ok (obj_get "value" o'), st))
    /\ obj_get "id" o'
       = (if negb (isNil (obj_get "id" o)) then obj_get "id" o
          else if index_of_ge0 name (labels st) then name else VNull)
    /\ obj_get "name" o'
       = (if isNil (obj_get "name" o) then name else obj_get "name" o)
    /\ (forall k, k <> "name" -> k <> "type" -> k <> "value" -> k <> "id" ->
        obj_get k o' = obj_get k o).
Proof.
  intros Hl Hn.
  destruct (input_value_total sess type name value (model st) Hn) as [v Hv].
  exists (input_options type name v o (labels st)).
  split; [now apply input_run|].
  split; [apply input_options_type|].
  split.
  { rewrite input_options_value. unfold input_value in Hv.
    destruct (index_of_ge0 type skipValueTypes); cbn [negb] in Hv.
    - now injection Hv as <-.
    - rewrite getValueAttribute_pure.
      assert (Hd : resolved_value sess name (default_null value) (model st)
                   = resolved_value sess name value (model st)).
      { unfold resolved_value. rewrite !getValueAttribute_eq.
        now destruct value. }
      now rewrite <- Hd, Hv. }
  split.
  { unfold input_options. cbn [obj_assign fold_left fst snd].
    rewrite obj_get_set_eq.
    destruct (isNil (obj_get "name" o)); [|reflexivity].
    now rewrite obj_get_set_ne by discriminate. }
  split.
  { unfold input_options. cbn [obj_assign fold_left fst snd].
    rewrite !obj_get_set_ne by discriminate.
    destruct (isNil (obj_get "name" o)); [apply obj_get_set_eq | reflexivity]. }
  intros k H1 H2 H3 H4. now apply input_options_other.
Qed.

Lemma input_writes_caller_options_witness :
  exists o',
    input Demo.host email_session (VStr "text") (VStr "email") VNull
      (Some 0%nat) class_state
    = (Ok (toHtmlString ("<input" ++ Demo.attributes o' ++ ">")),
       set_heap (<[0%nat := o']> [[("class", VStr "wide")]]) class_state)
    /\ obj_get "type" o' = VStr "text"
    /\ getValueAttribute email_session (VStr "email") VNull class_state
       = (Ok (obj_get "value" o'), class_state)
    /\ obj_get "id" o' = VStr "email"
    /\ obj_get "name" o' = VStr "email"
    /\ (forall k, k <> "name" -> k <> "type" -> k <> "value" -> k <> "id" ->
        obj_get k o' = obj_get k [("class", VStr "wide")]).
Proof.
  exact (input_writes_caller_options Demo.host email_session (VStr "text")
           (VStr "email") VNull 0%nat [("class", VStr "wide")] class_state
           eq_refl (or_introl (ex_intro _ "email" eq_refl))).
Defined.

(** ** Labels, ids and closing *)

Lemma label_string host s text esc st :
  exists h,
    label host (VStr s) text None esc st
    = (Ok h, set_labels (labels st ++ [VStr s])%list
               (set_heap (heap st ++ [[]])%list st)).
Proof.
  unfold label.
  erewrite bind_ok by reflexivity.
  erewrite bind_ok by reflexivity.
  erewrite bind_ok by (apply read_obj_ok; cbn [heap set_labels set_heap];
                       apply lookup_fresh).
  unfold _formatLabel.
  destruct (negb (isNil (default_null text))); eexists; reflexivity.
Qed.

(** X10.  After [label] was called for a name that is a string, with any
    text and either escaping, an [input] of any type for the same name,
    with no options, is rendered with the name as its [id]. *)
Theorem label_gives_input_its_id
    (host : Host) (sess : Session) (st : State) (s : string)
    (text esc type value : jsval) :
  exists h st1 o' st2,
    label host (VStr s) text None esc st = (Ok h, st1)
    /\ input host sess type (VStr s) value None st1
       = (Ok (toHtmlString ("<input" ++ html_attributes host o' ++ ">")),
          st2)
    /\ obj_get "id" o' = VStr s.
Proof.
  destruct (label_string host s text esc st) as [h Hh].
  destruct (input_value_total sess type (VStr s) value (model st)
              (or_introl (ex_intro _ s eq_refl))) as [v Hv].
  eexists h, _, _, _. split; [exact Hh|]. split.
  - erewrite input_fresh by exact Hv. reflexivity.
  - unfold input_options, index_of_ge0. cbn [labels set_labels].
    rewrite existsb_app. cbn [existsb strict_eq].
    rewrite String.eqb_refl, orb_true_r. reflexivity.
Qed.

(** X11.  [close] ends what [label] and [setModel] started: after a label
    for a name, a bound model and then [close], no label is recorded and
    no model is bound, so that a text input for the same name (with no old
    input, as in the source) is rendered with neither an [id] nor a
    value, even when the model had a value for it. *)
Theorem close_forgets_labels_and_model
    (host : Host) (st : State) (s : string) (m : Model) :
  let st1 := snd ((label host (VStr s) VUndefined None VUndefined ;;
                   setModel (Some m) ;;
                   close) st) in
  labels st1 = [] /\ model st1 = None
  /\ exists st2,
       input host no_session (VStr "text") (VStr s) VUndefined None st1
       = (Ok (toHtmlString
                ("<input"
                 ++ html_attributes host
                      [("name", VStr s); ("type", VStr "text");
                       ("value", VNull); ("id", VNull)]
                 ++ ">")),
          st2).
Proof.
  destruct (label_string host s VUndefined VUndefined st) as [h Hh].
  cbv zeta. erewrite bind_ok by exact Hh.
  cbn [setModel close bind modify ret snd labels model set_labels set_model
       set_heap].
  split; [reflexivity|]. split; [reflexivity|].
  eexists. erewrite input_fresh; [reflexivity|].
  reflexivity.
Qed.

(** ** Select without a selection *)








(** ** Select with an array selection *)

Lemma prop_iterable list items value :
  iterate list = Ok items ->
  prop list (to_str value) = Ok (list_display list value).
Proof.
  intros Hi. unfold list_display.
  destruct list; try discriminate; unfold prop;
    destruct (String.eqb _ _); try reflexivity;
    destruct (array_index _); reflexivity.
Qed.

Lemma getSelectOption_plain host list value selected st :
  plain_display (list_display list value) = true ->
  getSelectOption host (list_display list value) value (VArr selected) st
  = (Ok (option_markup host list selected value), st).
Proof.
  intros Hp. unfold getSelectOption.
  destruct (list_display list value) eqn:E; try discriminate;
    unfold option_markup; rewrite E; reflexivity.
Qed.

Lemma select_loop_run host list all selected items a xs st :
  iterate list = Ok all ->
  Forall (fun v => plain_display (list_display list v) = true) items ->
  g_html st = Some a ->
  arrays st !! a = Some xs ->
  select_loop host list (VArr selected) items st
  = (Ok tt,
     set_arrays (<[a := (xs ++ map (option_markup host list selected) items)%list]>
                   (arrays st)) st).
Proof.
  intros Hi Hall. revert xs st.
  induction Hall as [|v rest Hv Hall IH]; intros xs st Hg Ha.
  - cbn [select_loop map]. rewrite app_nil_r.
    rewrite list_insert_id by exact Ha. now destruct st.
  - cbn [select_loop].
    erewrite bind_ok by (unfold read_html; rewrite Hg; reflexivity).
    erewrite bind_ok by (unfold lift; rewrite (prop_iterable _ _ _ Hi);
                         reflexivity).
    erewrite bind_ok by (now apply getSelectOption_plain).
    erewrite bind_ok
      by (unfold array_push, modify; rewrite Ha; reflexivity).
    rewrite (IH (xs ++ [option_markup host list selected v])%list).
    + cbn [arrays set_arrays map]. rewrite list_insert_insert_eq.
      now rewrite <- app_assoc.
    + exact Hg.
    + cbn [arrays set_arrays]. apply list_lookup_insert_eq.
      now apply lookup_lt_Some in Ha.
Qed.

Lemma getValueAttribute_default_null sess name value st :
  getValueAttribute sess name (default_null value) st
  = getValueAttribute sess name value st.
Proof. rewrite !getValueAttribute_eq. now destruct value. Qed.

Lemma assign_html_empty_run g st :
  g_html st = Some g ->
  assign_html_empty st
  = (Ok tt, set_g_html (Some (length (arrays st)))
              (set_arrays (arrays st ++ [[]])%list st)).
Proof. intros H. unfold assign_html_empty. now rewrite H. Qed.

Lemma array_push_run a x xs st :
  arrays st !! a = Some xs ->
  array_push a x st
  = (Ok tt, set_arrays (<[a := (xs ++ [x])%list]> (arrays st)) st).
Proof. intros H. unfold array_push, modify. now rewrite H. Qed.

Lemma opt_delete_run l k o st :
  heap st !! l = Some o ->
  opt_delete l k st
  = (Ok tt, set_heap (<[l := obj_delete k o]> (heap st)) st).
Proof.
  intros H. unfold opt_delete.
  now rewrite (bind_ok _ _ _ _ _ (read_obj_ok _ _ _ H)).
Qed.

(** X13.  Where a global [html] exists and the selection resolves to an
    array, [select] over an array or a string returns markup, provided each
    element indexes a plain value in the list: one option per element, in
    order, whose key is the element itself, whose text is what the list
    holds at the element used as a key, that is [list[value]], and which is
    selected when the selection contains the element.  A placeholder, when
    the options have one, comes first as an option with an empty value and
    is removed from the caller's options, which also receive [id] and
    [name]. *)
Theorem select_over_array
    (host : Host) (sess : Session) (name list selected : jsval)
    (items sel : Datatypes.list jsval) (l g : loc) (o : obj) (st : State) :
  heap st !! l = Some o ->
  g_html st = Some g ->
  getValueAttribute sess name selected st = (Ok (VArr sel), st) ->
  iterate list = Ok items ->
  Forall (fun v => plain_display (list_display list v) = true) items ->
  let id := if negb (isNil (obj_get "id" o)) then obj_get "id" o
            else if index_of_ge0 name (labels st) then name else VNull in
  let o1 := obj_set "id" id o in
  let o2 := if isNil (obj_get "name" o1) then obj_set "name" name o1 else o1 in
  let p := obj_get "placeholder" o2 in
  let o' := if isNil p then o2 else obj_delete "placeholder" o2 in
  let first :=
    if isNil p then []
    else [toHtmlString
            ("<option"
             ++ html_attributes host
                  [("selected",
                    if index_of_ge0 VNull sel then VStr "selected" else VNull);
                   ("value", VStr "")]
             ++ ">" ++ html_entities host p ++ "</option>")] in
  exists st',
    select host sess name list selected (Some l) st
    = (Ok (toHtmlString
             ("<select" ++ html_attributes host o' ++ ">"
              ++ String.concat ""
                   (map html_text
                      (first ++ map (option_markup host list sel) items)%list)
              ++ "</select>")),
       st')
    /\ heap st' !! l = Some o'
    /\ labels st' = labels st
    /\ model st' = model st.
Proof.
  intros Hl Hg Hsel Hi Hall id o1 o2 p o' first.
  assert (Hlist : default_to (VArr []) list = list)
    by (destruct list; try discriminate; reflexivity).
  unfold select. rewrite Hlist.
  erewrite bind_ok by reflexivity.
  erewrite bind_ok by (rewrite getValueAttribute_default_null; exact Hsel).
  erewrite bind_ok by (apply (getIdAttribute_run _ _ _ _ Hl)).
  fold id.
  erewrite bind_ok by (apply (opt_set_run _ _ _ _ _ Hl)).
  fold o1.
  pose proof (heap_written st l o o1 Hl) as Hl1.
  erewrite bind_ok by (apply (opt_get_run _ _ _ _ Hl1)).
  assert (H2 : exists st2,
             when (isNil (obj_get "name" o1)) (opt_set l "name" name)
               (set_heap (<[l:=o1]> (heap st)) st) = (Ok tt, st2)
             /\ heap st2 !! l = Some o2 /\ labels st2 = labels st
             /\ model st2 = model st /\ g_html st2 = Some g).
  { subst o2. destruct (isNil (obj_get "name" o1)); cbn [when].
    - eexists. split; [apply (opt_set_run _ _ _ _ _ Hl1)|].
      split; [apply (heap_written _ _ _ _ Hl1)|]. now cbn.
    - eexists. split; [reflexivity|]. split; [exact Hl1|]. now cbn. }
  destruct H2 as [st2 [Hrun2 [Hl2 [Hlab2 [Hm2 Hg2]]]]].
  erewrite bind_ok by exact Hrun2.
  erewrite bind_ok by (apply (assign_html_empty_run _ _ Hg2)).
  set (a := length (arrays st2)).
  set (st3 := set_g_html (Some a) (set_arrays (arrays st2 ++ [[]])%list st2)).
  assert (Hl3 : heap st3 !! l = Some o2) by exact Hl2.
  assert (Ha3 : arrays st3 !! a = Some [])
    by (cbn [arrays st3 set_g_html set_arrays]; now apply list_lookup_middle).
  erewrite bind_ok by (apply (opt_get_run _ _ _ _ Hl3)).
  fold p.
  assert (H4 : exists st4,
             (if negb (isNil p)
              then let* a0 := read_html in
                   let* opt := _placeholderOption host p (VArr sel) in
                   array_push a0 opt ;; opt_delete l "placeholder"
              else ret tt) st3 = (Ok tt, st4)
             /\ heap st4 !! l = Some o' /\ labels st4 = labels st
             /\ model st4 = model st /\ g_html st4 = Some a
             /\ arrays st4 !! a = Some first).
  { subst o' first. destruct (isNil p); cbn [negb].
    - exists st3. repeat split; auto.
    - erewrite bind_ok by reflexivity.
      erewrite bind_ok by reflexivity.
      erewrite bind_ok by (apply (array_push_run _ _ _ _ Ha3)).
      eexists. split.
      + apply opt_delete_run. exact Hl3.
      + cbn [heap labels model g_html arrays set_heap set_arrays set_g_html
             st3].
        split; [apply (lookup_written _ _ _ _ Hl2)|].
        split; [exact Hlab2|]. split; [exact Hm2|]. split; [reflexivity|].
        apply list_lookup_insert_eq. rewrite length_app. cbn. lia. }
  destruct H4 as [st4 [Hrun4 [Hl4 [Hlab4 [Hm4 [Hg4 Ha4]]]]]].
  erewrite bind_ok by exact Hrun4.
  erewrite bind_ok by (unfold lift; rewrite Hi; reflexivity).
  erewrite bind_ok by (apply (select_loop_run _ _ _ _ _ _ _ _ Hi Hall Hg4 Ha4)).
  set (st5 := set_arrays _ st4).
  erewrite bind_ok by (apply read_obj_ok; exact Hl4).
  assert (Hj : html_join st5
               = (Ok (String.concat ""
                        (map html_text
                           (first ++ map (option_markup host list sel) items)%list)),
                  st5)).
  { unfold html_join.
    erewrite bind_ok by (unfold read_html; cbn [g_html st5 set_arrays];
                         rewrite Hg4; reflexivity).
    unfold bind, gets, ret. cbn [arrays st5 set_arrays].
    rewrite list_lookup_insert_eq by (now apply lookup_lt_Some in Ha4).
    reflexivity. }
  erewrite bind_ok by exact Hj.
  exists st5. split; [reflexivity|].
  split; [exact Hl4|]. split; [exact Hlab4 | exact Hm4].
Qed.

Lemma select_over_array_witness :
  exists st',
    select Demo.host no_session (VStr "size")
      (VArr [VStr "small"; VStr "large"]) (VArr [VStr "large"])
      (Some 0%nat) size_state
    = (Ok (toHtmlString
             ("<select name=" ++ dq ++ "size" ++ dq ++ ">"
              ++ "<option value=" ++ dq ++ dq ++ ">Pick</option>"
              ++ "<option value=" ++ dq ++ "small" ++ dq
              ++ ">undefined</option>"
              ++ "<option value=" ++ dq ++ "large" ++ dq
              ++ " selected=" ++ dq ++ "selected" ++ dq
              ++ ">undefined</option>"
              ++ "</select>")),
       st')
    /\ heap st' !! 0%nat = Some [("id", VNull); ("name", VStr "size")]
    /\ labels st' = []
    /\ model st' = None.
Proof.
  apply (select_over_array Demo.host no_session (VStr "size")
           (VArr [VStr "small"; VStr "large"]) (VArr [VStr "large"])
           [VStr "small"; VStr "large"] [VStr "large"] 0%nat 0%nat
           [("placeholder", VStr "Pick")] size_state
           eq_refl eq_refl eq_refl eq_refl).
  repeat constructor.
Defined.

(** ** The key transform *)

Lemma lacks_append c a b :
  lacks c (a ++ b) = lacks c a && lacks c b.
Proof.
  induction a as [|d t IH]; cbn; [reflexivity|].
  now rewrite IH, andb_assoc.
Qed.

Lemma lacks_replaced c r s :
  lacks c r = true -> lacks c (replace_char_g c r s) = true.
Proof.
  intros Hr. induction s as [|d t IH]; cbn; [reflexivity|].
  destruct (Ascii.eqb c d) eqn:E.
  - now rewrite lacks_append, Hr, IH.
  - cbn. now rewrite E, IH.
Qed.

Lemma lacks_kept c d r s :
  lacks d r = true -> lacks d s = true ->
  lacks d (replace_char_g c r s) = true.
Proof.
  intros Hr. induction s as [|e t IH]; cbn; [reflexivity|].
  intros H. apply andb_true_iff in H as [He Ht].
  destruct (Ascii.eqb c e).
  - now rewrite lacks_append, Hr, IH.
  - cbn. now rewrite He, IH.
Qed.

Lemma replace_char_g_lacks c r s :
  lacks c s = true -> replace_char_g c r s = s.
Proof.
  induction s as [|d t IH]; cbn; [reflexivity|].
  intros H. apply andb_true_iff in H as [Hd Ht].
  apply negb_true_iff in Hd. now rewrite Hd, IH.
Qed.

Lemma remove_bracket_space_bracket_lacks s :
  lacks "[" s = true -> remove_bracket_space_bracket s = s.
Proof.
  induction s as [|d t IH]; [reflexivity|].
  intros H. cbn [lacks] in H. apply andb_true_iff in H as [Hd Ht].
  specialize (IH Ht).
  destruct d as [[] [] [] [] [] [] [] []];
    try discriminate; cbn [remove_bracket_space_bracket]; now rewrite IH.
Qed.

(** X14.  Whatever string it is given, [_transformKey] returns a key that
    contains neither an opening nor a closing bracket. *)
Theorem transformKey_leaves_no_bracket (s : string) :
  exists key,
    _transformKey (VStr s) = Ok (VStr key)
    /\ lacks "[" key = true /\ lacks "]" key = true.
Proof.
  eexists. split; [reflexivity|]. split.
  - apply lacks_kept; [reflexivity|]. now apply lacks_replaced.
  - now apply lacks_replaced.
Qed.

(** X15.  A name without a dot and without brackets is its own key. *)
Theorem transformKey_plain_name (s : string) :
  lacks "." s = true -> lacks "[" s = true -> lacks "]" s = true ->
  _transformKey (VStr s) = Ok (VStr s).
Proof.
  intros Hd Ho Hc. unfold _transformKey.
  rewrite (replace_char_g_lacks "." "_" s Hd).
  rewrite (remove_bracket_space_bracket_lacks s Ho).
  rewrite (replace_char_g_lacks "[" "." s Ho).
  now rewrite (replace_char_g_lacks "]" "" s Hc).
Qed.

Lemma transformKey_plain_name_witness :
  _transformKey (VStr "first_name") = Ok (VStr "first_name").
Proof.
  exact (transformKey_plain_name "first_name" eq_refl eq_refl eq_refl).
Defined.

(** ** Textarea *)

Lemma append_assoc_char (a : string) (c : ascii) (b : string) :
  (a ++ String c "") ++ b = a ++ String c b.
Proof. induction a as [|d t IH]; cbn; [reflexivity | now rewrite IH]. Qed.

Lemma append_empty_r (a : string) : a ++ "" = a.
Proof. induction a as [|d t IH]; cbn; [reflexivity | now rewrite IH]. Qed.

Lemma split_x_aux_lacks cur b :
  lacks "x" b = true -> split_x_aux cur b = [cur ++ b].
Proof.
  revert cur. induction b as [|c t IH]; intros cur;
    cbn [split_x_aux lacks append].
  - intros _. now rewrite append_empty_r.
  - intros H. apply andb_true_iff in H as [Hc Ht].
    apply negb_true_iff in Hc. rewrite Ascii.eqb_sym, Hc.
    now rewrite IH, append_assoc_char.
Qed.

Lemma split_x_aux_two cur a b :
  lacks "x" a = true -> lacks "x" b = true ->
  split_x_aux cur (a ++ String "x" b) = [cur ++ a; b].
Proof.
  revert cur. induction a as [|c t IH]; intros cur;
    cbn [split_x_aux lacks append].
  - intros _ Hb. rewrite Ascii.eqb_refl, append_empty_r.
    now rewrite (split_x_aux_lacks "" b Hb).
  - intros H Hb. apply andb_true_iff in H as [Hc Ht].
    apply negb_true_iff in Hc. rewrite Ascii.eqb_sym, Hc.
    now rewrite IH, append_assoc_char.
Qed.

Lemma obj_get_delete_ne k k' o :
  k <> k' -> obj_get k' (obj_delete k o) = obj_get k' o.
Proof.
  intros Hne. induction o as [|[k0 v0] r IH]; cbn; [reflexivity|].
  destruct (String.eqb k k0) eqn:E; cbn.
  - apply String.eqb_eq in E. subst k0.
    destruct (String.eqb k' k) eqn:E'; [|reflexivity].
    apply String.eqb_eq in E'. congruence.
  - now rewrite IH.
Qed.

(** X16.  The short form of the size: when the [size] of the options reads
    [a], the letter x, [b], with no other x, [_setTextAreaSize] returns a
    new object whose [cols] is [a] and whose [rows] is [b], both as
    strings; when it holds no x at all, [cols] is the whole string and
    [rows] is [undefined].  The caller's object is not written to. *)
Theorem textarea_size_short_form
    (st : State) (l : loc) (o : obj) (a b : string) :
  heap st !! l = Some o ->
  lacks "x" a = true -> lacks "x" b = true ->
  (obj_get "size" o = VStr (a ++ String "x" b) ->
   exists o2,
     _setTextAreaSize l st
     = (Ok (length (heap st)), set_heap (heap st ++ [o2])%list st)
     /\ obj_get "cols" o2 = VStr a /\ obj_get "rows" o2 = VStr b)
  /\
  (obj_get "size" o = VStr a ->
   exists o2,
     _setTextAreaSize l st
     = (Ok (length (heap st)), set_heap (heap st ++ [o2])%list st)
     /\ obj_get "cols" o2 = VStr a
     /\ obj_get "rows" o2 = VUndefined).
Proof.
  intros Hl Ha Hb. split; intros Hs.
  - eexists. split.
    + unfold _setTextAreaSize.
      erewrite bind_ok by (apply (opt_get_run _ _ _ _ Hl)).
      rewrite Hs. cbn [isNil negb]. unfold _setQuickTextAreaSize.
      erewrite bind_ok by (apply (opt_get_run _ _ _ _ Hl)).
      rewrite Hs. erewrite bind_ok by reflexivity.
      erewrite bind_ok by (apply (read_obj_ok _ _ _ Hl)).
      reflexivity.
    + unfold split_x. rewrite (split_x_aux_two "" a b Ha Hb).
      cbn [map nth obj_assign fold_left fst snd append].
      split.
      * rewrite obj_get_set_ne by discriminate. apply obj_get_set_eq.
      * apply obj_get_set_eq.
  - eexists. split.
    + unfold _setTextAreaSize.
      erewrite bind_ok by (apply (opt_get_run _ _ _ _ Hl)).
      rewrite Hs. cbn [isNil negb]. unfold _setQuickTextAreaSize.
      erewrite bind_ok by (apply (opt_get_run _ _ _ _ Hl)).
      rewrite Hs. erewrite bind_ok by reflexivity.
      erewrite bind_ok by (apply (read_obj_ok _ _ _ Hl)).
      reflexivity.
    + unfold split_x.
      rewrite (split_x_aux_lacks "" a Ha).
      cbn [map nth obj_assign fold_left fst snd append].
      split.
      * rewrite obj_get_set_ne by discriminate. apply obj_get_set_eq.
      * apply obj_get_set_eq.
Qed.

Lemma textarea_size_short_form_witness :
  exists o2,
    _setTextAreaSize 0%nat sized_state
    = (Ok 1%nat, set_heap ([[("size", VStr "40x5")]] ++ [o2])%list sized_state)
    /\ obj_get "cols" o2 = VStr "40" /\ obj_get "rows" o2 = VStr "5".
Proof.
  exact (proj1 (textarea_size_short_form sized_state 0%nat
                  [("size", VStr "40x5")] "40" "5" eq_refl eq_refl eq_refl)
           eq_refl).
Defined.




(** ** The attributes of the form tag *)

Lemma obj_has_replace k k' v o :
  obj_has k' (obj_replace k v o) = obj_has k' o.
Proof.
  induction o as [|[k0 v0] r IH]; cbn; [reflexivity|].
  destruct (String.eqb k k0); cbn; [reflexivity | now rewrite IH].
Qed.

Lemma obj_has_insert_index n k k' v o :
  obj_has k' (obj_insert_index n k v o) = String.eqb k' k || obj_has k' o.
Proof.
  induction o as [|[k0 v0] r IH]; cbn; [reflexivity|].
  destruct (array_index k0) as [m|]; [destruct (m <? n)%N|]; cbn;
    try reflexivity.
  rewrite IH. now rewrite !orb_assoc, (orb_comm (String.eqb k' k0)).
Qed.

Lemma obj_has_app k k' v o :
  obj_has k' (o ++ [(k, v)])%list = String.eqb k' k || obj_has k' o.
Proof.
  induction o as [|[k0 v0] r IH]; cbn; [reflexivity|].
  rewrite IH. now rewrite !orb_assoc, (orb_comm (String.eqb k' k0)).
Qed.

Lemma obj_has_set k k' v o :
  obj_has k' (obj_set k v o) = String.eqb k' k || obj_has k' o.
Proof.
  unfold obj_set. destruct (obj_has k o) eqn:H.
  - rewrite obj_has_replace.
    destruct (String.eqb k' k) eqn:E; [|reflexivity].
    apply String.eqb_eq in E. subst k'. now rewrite H.
  - destruct (array_index k).
    + apply obj_has_insert_index.
    + apply obj_has_app.
Qed.

Lemma copy_options_reserved o keys attributes k :
  existsb (String.eqb k) reserved = true ->
  obj_get k (copy_options o keys attributes) = obj_get k attributes.
Proof.
  intros Hk. revert attributes.
  induction keys as [|key r IH]; intros attributes; [reflexivity|].
  unfold copy_options in *. cbn [fold_left]. rewrite IH.
  destruct (existsb (String.eqb key) reserved) eqn:E; [reflexivity|].
  apply obj_get_set_ne. intros ->. congruence.
Qed.

Lemma copy_options_copied o o2 attributes k :
  existsb (String.eqb k) reserved = false ->
  obj_get k (copy_options o (obj_keys o2) attributes)
  = if obj_has k o2 then obj_get k o else obj_get k attributes.
Proof.
  intros Hk. revert attributes.
  induction o2 as [|[key v] r IH]; intros attributes; [reflexivity|].
  unfold copy_options in *. cbn [obj_keys map fst fold_left obj_has].
  fold (obj_keys r). rewrite IH.
  destruct (String.eqb k key) eqn:E.
  - apply String.eqb_eq in E. subst key. rewrite Hk. cbn [orb].
    rewrite obj_get_set_eq. now destruct (obj_has k r).
  - cbn [orb]. destruct (obj_has k r); [reflexivity|].
    destruct (existsb (String.eqb key) reserved); [reflexivity|].
    apply obj_get_set_ne. intros ->. now rewrite String.eqb_refl in E.
Qed.

(** X18.  A [method] option that is truthy and not a string makes [open]
    throw a TypeError before anything is written: the state, the caller's
    options included, is as it was. *)
Theorem open_rejects_non_string_method
    (host : Host) (sess : Session) (l : loc) (o : obj) (st : State) :
  heap st !! l = Some o ->
  truthy (obj_get "method" o) = true ->
  (forall s, obj_get "method" o <> VStr s) ->
  open host sess (Some l) st = (Throw TypeError, st).
Proof.
  intros Hl Ht Hns. unfold open.
  erewrite bind_ok by reflexivity.
  erewrite bind_ok by (apply (opt_get_run _ _ _ _ Hl)).
  unfold js_or. rewrite Ht. apply bind_fails.
  unfold lift, _getMethod, toUpperCase.
  destruct (obj_get "method" o) as [| | | |s| |]; try reflexivity.
  now destruct (Hns s).
Qed.

Lemma open_rejects_non_string_method_witness :
  open Demo.host no_session (Some 0%nat)
    (set_heap [[("method", VNum 1)]] (new_builder VNull))
  = (Throw TypeError, set_heap [[("method", VNum 1)]] (new_builder VNull)).
Proof.
  apply (open_rejects_non_string_method Demo.host no_session 0%nat
           [("method", VNum 1)]
           (set_heap [[("method", VNum 1)]] (new_builder VNull))
           eq_refl eq_refl).
  intros s. discriminate.
Defined.

Lemma _getAction_value host l o st :
  heap st !! l = Some o ->
  _getAction host l st
  = (Ok (VStr (if negb (isNil (obj_get "url" o))
               then _getUrlAction host (obj_get "url" o)
               else if negb (isNil (obj_get "route" o))
                    then _getRouteAction host (obj_get "route" o)
                    else url_current host)), st).
Proof.
  intros Hl. unfold _getAction.
  erewrite bind_ok by (apply (opt_get_run _ _ _ _ Hl)).
  destruct (negb (isNil (obj_get "url" o))); [reflexivity|].
  erewrite bind_ok by (apply (opt_get_run _ _ _ _ Hl)).
  now destruct (negb _).
Qed.

Lemma open_run host sess st l o m :
  heap st !! l = Some o ->
  js_or (obj_get "method" o) (VStr "post") = VStr m ->
  let o' := if negb (isNil (obj_get "files" o))
            then obj_set "enctype" (VStr "multipart/form-data") o else o in
  let action :=
    VStr (if negb (isNil (obj_get "url" o))
          then _getUrlAction host (obj_get "url" o)
          else if negb (isNil (obj_get "route" o))
               then _getRouteAction host (obj_get "route" o)
               else url_current host) in
  let attributes :=
    copy_options o' (obj_keys o')
      [("method", VStr (if negb (String.eqb (upper m) "GET")
                        then "POST" else upper m));
       ("action", action); ("accept-charset", VStr "UTF-8")] in
  exists rest st',
    open host sess (Some l) st
    = (Ok (toHtmlString
             ("<form" ++ html_attributes host attributes ++ ">" ++ rest)),
       st')
    /\ heap st' !! l = Some o'.
Proof.
  intros Hl Hm o' action attributes.
  unfold open.
  erewrite bind_ok by reflexivity.
  erewrite bind_ok by (apply (opt_get_run _ _ _ _ Hl)).
  rewrite Hm.
  erewrite bind_ok by reflexivity.
  erewrite bind_ok by (apply (_getAction_value _ _ _ _ Hl)).
  fold action.
  destruct (_getAppendage_run host sess m st)
    as [id1 [tok [id2 [extra [Happ Hnil]]]]].
  erewrite bind_ok by exact Happ.
  assert (Hl2 : heap (set_heap (heap st ++ extra)%list st) !! l = Some o).
  { cbn [heap set_heap]. apply lookup_app_l_Some, Hl. }
  erewrite bind_ok by (apply (opt_get_run _ _ _ _ Hl2)).
  subst attributes o'.
  destruct (negb (isNil (obj_get "files" o))); cbn [when].
  - erewrite bind_ok by (apply (opt_set_run _ _ _ _ _ Hl2)).
    erewrite bind_ok by (eapply read_obj_ok, heap_written, Hl2).
    eexists _, _. split; [reflexivity|].
    apply (heap_written _ _ _ _ Hl2).
  - erewrite bind_ok by reflexivity.
    erewrite bind_ok by (apply (read_obj_ok _ _ _ Hl2)).
    eexists _, _. split; [reflexivity|]. exact Hl2.
Qed.

(** X19.  The attributes of the form tag that [open] builds, for options
    whose [method] is a string [m] or is absent or falsy ([m] is then
    [post]).  [method] is GET or POST, GET only for a method that
    uppercases to GET.  [action] is the resolved [url] option, else the
    resolved [route] option, else the current URL; an [action] option is
    never used.  The [url], [route] and [files] options never become
    attributes.  Every other entry of the options is copied as it is.  A
    [files] option that is present sets [enctype] to multipart/form-data,
    in the tag and in the caller's options. *)
Theorem open_form_attributes
    (host : Host) (sess : Session) (st : State) (l : loc) (o : obj)
    (m : string) :
  heap st !! l = Some o ->
  js_or (obj_get "method" o) (VStr "post") = VStr m ->
  exists attributes rest st' o',
    open host sess (Some l) st
    = (Ok (toHtmlString
             ("<form" ++ html_attributes host attributes ++ ">" ++ rest)),
       st')
    /\ heap st' !! l = Some o'
    /\ obj_get "method" attributes
       = VStr (if String.eqb (upper m) "GET" then "GET" else "POST")
    /\ obj_get "action" attributes
       = VStr (if negb (isNil (obj_get "url" o))
               then _getUrlAction host (obj_get "url" o)
               else if negb (isNil (obj_get "route" o))
                    then _getRouteAction host (obj_get "route" o)
                    else url_current host)
    /\ obj_get "url" attributes = VUndefined
    /\ obj_get "route" attributes = VUndefined
    /\ obj_get "files" attributes = VUndefined
    /\ (forall k, existsb (String.eqb k) reserved = false ->
                  k <> "enctype" -> obj_has k o = true ->
                  obj_get k attributes = obj_get k o)
    /\ (isNil (obj_get "files" o) = false ->
        obj_get "enctype" attributes = VStr "multipart/form-data"
        /\ obj_get "enctype" o' = VStr "multipart/form-data")
    /\ (forall k, k <> "enctype" -> obj_get k o' = obj_get k o).
Proof.
  intros Hl Hm.
  destruct (open_run host sess st l o m Hl Hm) as [rest [st' [Hrun Hl']]].
  cbv zeta in Hrun, Hl'.
  set (o' := if negb (isNil (obj_get "files" o))
             then obj_set "enctype" (VStr "multipart/form-data") o else o)
    in *.
  eexists _, rest, st', o'.
  split; [exact Hrun|]. split; [exact Hl'|].
  split.
  { rewrite copy_options_reserved by reflexivity. cbn.
    destruct (String.eqb (upper m) "GET") eqn:E; [|reflexivity].
    apply String.eqb_eq in E. now rewrite E. }
  split; [now rewrite copy_options_reserved by reflexivity|].
  split; [now rewrite copy_options_reserved by reflexivity|].
  split; [now rewrite copy_options_reserved by reflexivity|].
  split; [now rewrite copy_options_reserved by reflexivity|].
  assert (Hother : forall k, k <> "enctype" -> obj_get k o' = obj_get k o).
  { intros k Hk. subst o'. destruct (negb _); [|reflexivity].
    apply obj_get_set_ne. congruence. }
  split.
  { intros k Hres Hk Hhas. rewrite copy_options_copied by exact Hres.
    assert (Hhas' : obj_has k o' = true).
    { subst o'. destruct (negb _); [|exact Hhas].
      rewrite obj_has_set, Hhas. apply orb_true_r. }
    rewrite Hhas'. now apply Hother. }
  split; [|exact Hother].
  intros Hf. subst o'. rewrite Hf. cbn [negb].
  rewrite copy_options_copied by reflexivity.
  rewrite obj_has_set, String.eqb_refl. cbn [orb].
  split; apply obj_get_set_eq.
Qed.

Lemma open_form_attributes_witness :
  exists attributes rest st' o',
    open Demo.host no_session (Some 0%nat)
      (set_heap [upload_options] (new_builder VNull))
    = (Ok (toHtmlString
             ("<form" ++ Demo.attributes attributes ++ ">" ++ rest)),
       st')
    /\ heap st' !! 0%nat = Some o'
    /\ obj_get "method" attributes = VStr "POST"
    /\ obj_get "action" attributes = VStr "/photos"
    /\ obj_get "url" attributes = VUndefined
    /\ obj_get "route" attributes = VUndefined
    /\ obj_get "files" attributes = VUndefined
    /\ (forall k, existsb (String.eqb k) reserved = false ->
                  k <> "enctype" -> obj_has k upload_options = true ->
                  obj_get k attributes = obj_get k upload_options)
    /\ (isNil (VBool true) = false ->
        obj_get "enctype" attributes = VStr "multipart/form-data"
        /\ obj_get "enctype" o' = VStr "multipart/form-data")
    /\ (forall k, k <> "enctype" -> obj_get k o' = obj_get k upload_options).
Proof.
  exact (open_form_attributes Demo.host no_session
           (set_heap [upload_options] (new_builder VNull)) 0%nat
           upload_options "put" eq_refl eq_refl).
Defined.

(** ** Label texts *)

(** X20.  [label] records the name before it formats the text: called with
    no text for a name that is not a string, it throws a TypeError and the
    name is in the recorded labels all the same. *)
Theorem label_records_name_before_throwing
    (host : Host) (name esc : jsval) (st : State) :
  (forall s, name <> VStr s) ->
  label host name VUndefined None esc st
  = (Throw TypeError,
     set_labels (labels st ++ [name])%list
       (set_heap (heap st ++ [[]])%list st)).
Proof.
  intros Hn. unfold label.
  erewrite bind_ok by reflexivity.
  erewrite bind_ok by reflexivity.
  erewrite bind_ok by (apply read_obj_ok; cbn [heap set_labels set_heap];
                       apply lookup_fresh).
  apply bind_fails. unfold lift, _formatLabel. cbn [default_null isNil negb].
  destruct name as [| | | |s| |]; try reflexivity.
  now destruct (Hn s).
Qed.

Lemma label_records_name_before_throwing_witness :
  label Demo.host VNull VUndefined None VUndefined (new_builder VNull)
  = (Throw TypeError,
     set_labels [VNull] (set_heap [[]] (new_builder VNull))).
Proof.
  apply (label_records_name_before_throwing Demo.host VNull VUndefined
           (new_builder VNull)).
  intros s. discriminate.
Defined.

Lemma upper_char_underscore c :
  Ascii.eqb "_" (upper_char c) = Ascii.eqb "_" c.
Proof.
  destruct c as [[] [] [] [] [] [] [] []]; reflexivity.
Qed.

Lemma count_char_upper_at_boundaries p s :
  count_char "_" (upper_at_boundaries p s) = count_char "_" s.
Proof.
  revert p. induction s as [|c t IH]; intros p; [reflexivity|].
  cbn [upper_at_boundaries count_char]. rewrite IH.
  destruct (xorb p (is_word_char c) && in_label_class c); [|reflexivity].
  now rewrite upper_char_underscore.
Qed.

Lemma count_char_replace_first s :
  count_char "_" (replace_char_first "_" " " s) = pred (count_char "_" s).
Proof.
  induction s as [|c t IH]; [reflexivity|].
  cbn [replace_char_first count_char].
  destruct (Ascii.eqb "_" c) eqn:E.
  - reflexivity.
  - cbn [count_char]. now rewrite E, IH.
Qed.

(** X21.  The text that [_formatLabel] derives from a name keeps every
    underscore but the first: it holds one underscore less than the name,
    and none when the name has none. *)
Theorem formatLabel_replaces_one_underscore (s : string) :
  exists text,
    _formatLabel (VStr s) VNull = Ok (VStr text)
    /\ count_char "_" text = pred (count_char "_" s).
Proof.
  eexists. split; [reflexivity|].
  now rewrite count_char_upper_at_boundaries, count_char_replace_first.
Qed.
